(** * mini_chatbot: the retrieval backend of [backend/app.py]

    A shallow embedding of the Flask backend: the sentence-embedding
    lookup ([find_best_answer]), the chat-history file
    ([save_chat_history]) and the three request handlers.

    Numbers.  The embeddings and similarity scores are NumPy floats in the
    program; here they are real numbers, so every statement below is about
    the exact-arithmetic reading of the program (no rounding, no NaN, no
    infinities).  The functions the program imports from scikit-learn and
    NumPy ([cosine_similarity], [np.argmax]) are written out after their
    documented behaviour, including the checks that make them raise.
    Since a division by zero has no telling outcome over the reals, the
    kernel is also given with the outcome of each division made explicit
    ([cosine_ieee]), and shown to be finite and equal to [cosine].

    Text is a [string] whose characters stand for code points below 256.
    What the program prints is left out, and so is the directory of the
    history file; the server is taken to serve one request at a time. *)

From Stdlib Require Import Reals Lra Lia List String Ascii Bool Arith ZArith.
From Stdlib Require Import DecimalString.
Import ListNotations.

Local Open Scope R_scope.
Local Open Scope string_scope.
Local Open Scope list_scope.

(** ** Python exceptions and results *)

Inductive exn : Type :=
| AttributeError
| TypeError
| ValueError
| IndexError
| KeyError
| BadRequest
| OSError.

Inductive result (A : Type) : Type :=
| Ok (a : A)
| Raise (e : exn).

Arguments Ok {A} a.
Arguments Raise {A} e.

Definition rbind {A B : Type} (c : result A) (k : A -> result B) : result B :=
  match c with
  | Ok a => k a
  | Raise e => Raise e
  end.

Declare Scope result_scope.
Delimit Scope result_scope with result.
Notation "x <- c ;; k" := (rbind c (fun x => k))
  (at level 61, c at next level, right associativity) : result_scope.
Notation "' p <- c ;; k" := (rbind c (fun x => let 'p := x in k))
  (at level 61, p pattern, c at next level, right associativity) : result_scope.

(** [seq[i]] on a Python list or a one-dimensional array, for [0 <= i]. *)
Definition getitem {A : Type} (l : list A) (i : nat) : result A :=
  match nth_error l i with
  | Some a => Ok a
  | None => Raise IndexError
  end.

(** ** Vectors, and the two library functions of the matching step *)

Definition vector : Type := list R.
Definition matrix : Type := list vector.

Fixpoint dot (a b : vector) : R :=
  match a, b with
  | x :: a', y :: b' => x * y + dot a' b'
  | _, _ => 0
  end.

(** [sklearn.utils.extmath.row_norms]: the Euclidean length of a row. *)
Definition row_norm (a : vector) : R := sqrt (dot a a).

(** [sklearn.preprocessing._data._handle_zeros_in_scale]: a zero norm is
    replaced by 1, so that a zero row is left as it is. *)
Definition handle_zeros_in_scale (n : R) : R :=
  if Req_dec_T n 0 then 1 else n.

(** [sklearn.preprocessing.normalize] on one row (L2 norm). *)
Definition normalize (a : vector) : vector :=
  map (fun x => x / handle_zeros_in_scale (row_norm a)) a.

(** The entry of the kernel matrix for the rows [x] and [y]. *)
Definition cosine (x y : vector) : R := dot (normalize x) (normalize y).

(** *** The same kernel with the outcome of each division made explicit

    A floating-point value is finite, or it is an infinity or NaN; a
    division by zero gives one of the latter ([0 / 0] is NaN), and so
    does every sum or product with one of them. *)
Inductive ieee : Type :=
| Finite (x : R)
| NonFinite.

Definition ieee_div (x n : R) : ieee :=
  if Req_dec_T n 0 then NonFinite else Finite (x / n).

Definition ieee_mul (a b : ieee) : ieee :=
  match a, b with
  | Finite x, Finite y => Finite (x * y)
  | _, _ => NonFinite
  end.

Definition ieee_add (a b : ieee) : ieee :=
  match a, b with
  | Finite x, Finite y => Finite (x + y)
  | _, _ => NonFinite
  end.

Fixpoint dot_ieee (a b : list ieee) : ieee :=
  match a, b with
  | x :: a', y :: b' => ieee_add (ieee_mul x y) (dot_ieee a' b')
  | _, _ => Finite 0
  end.

(** [normalize] and the kernel entry, dividing by the norm after
    [_handle_zeros_in_scale], as the library does. *)
Definition normalize_ieee (a : vector) : list ieee :=
  map (fun x => ieee_div x (handle_zeros_in_scale (row_norm a))) a.

Definition cosine_ieee (x y : vector) : ieee :=
  dot_ieee (normalize_ieee x) (normalize_ieee y).

(** What the kernel entry would be if the norm were used as it is. *)
Definition normalize_unguarded (a : vector) : list ieee :=
  map (fun x => ieee_div x (row_norm a)) a.

Definition cosine_unguarded (x y : vector) : ieee :=
  dot_ieee (normalize_unguarded x) (normalize_unguarded y).

(** [sklearn.metrics.pairwise.check_pairwise_arrays]: both arguments have
    at least one row and one column, and the same number of columns. *)
Definition check_pairwise_arrays (X Y : matrix) : result unit :=
  match X, Y with
  | x :: _, _ :: _ =>
      let d := List.length x in
      if (0 <? d)%nat
         && forallb (fun r => (List.length r =? d)%nat) X
         && forallb (fun r => (List.length r =? d)%nat) Y
      then Ok tt else Raise ValueError
  | _, _ => Raise ValueError
  end.

(** [sklearn.metrics.pairwise.cosine_similarity(X, Y)]; [Y = None] means
    [Y = X]. *)
Definition cosine_similarity (X : matrix) (Y : option matrix) : result matrix :=
  let Y' := match Y with Some Y0 => Y0 | None => X end in
  (_ <- check_pairwise_arrays X Y' ;;
   Ok (map (fun x => map (cosine x) Y') X))%result.

(** [np.argmax] on a one-dimensional array: a left-to-right scan that
    replaces the running maximum only by a strictly greater value, so the
    first occurrence of the maximum wins; an empty array raises. *)
Fixpoint argmax_from (best_i : nat) (best : R) (i : nat) (l : list R) : nat :=
  match l with
  | [] => best_i
  | x :: l' =>
      if Rgt_dec x best then argmax_from i x (S i) l'
      else argmax_from best_i best (S i) l'
  end.

Definition argmax (l : list R) : result nat :=
  match l with
  | [] => Raise ValueError
  | x :: l' => Ok (argmax_from 0 x 1 l')
  end.

(** ** JSON values, as [json.load] and [request.get_json] produce them *)

Local Set Warnings "-register-all".

Inductive json : Type :=
| JNull
| JBool (b : bool)
| JInt (z : Z)
| JFloat (x : R)
| JStr (s : string)
| JArr (items : list json)
| JObj (fields : list (string * json)).

(** [bool(v)]: [None], [False], zero, and the empty string, list and dict
    are false. *)
Definition truthy (v : json) : bool :=
  match v with
  | JNull => false
  | JBool b => b
  | JInt z => negb (z =? 0)%Z
  | JFloat x => if Req_dec_T x 0 then false else true
  | JStr s => negb (s =? "")
  | JArr items => match items with [] => false | _ :: _ => true end
  | JObj fields => match fields with [] => false | _ :: _ => true end
  end.

Fixpoint lookup (k : string) (fields : list (string * json)) : option json :=
  match fields with
  | [] => None
  | (k', v) :: rest => if k' =? k then Some v else lookup k rest
  end.

(** [sub in s] on two strings. *)
Fixpoint is_substring (sub s : string) : bool :=
  prefix sub s ||
  match s with
  | EmptyString => false
  | String _ s' => is_substring sub s'
  end.

(** [k in v]: key membership on a dict, element membership on a list,
    substring test on a string; anything else is not iterable. *)
Definition contains (v : json) (k : string) : result bool :=
  match v with
  | JObj fields => Ok (match lookup k fields with Some _ => true | None => false end)
  | JArr items =>
      Ok (existsb (fun x => match x with JStr s => s =? k | _ => false end) items)
  | JStr s => Ok (is_substring k s)
  | _ => Raise TypeError
  end.

(** [v[k]] with a string key [k]. *)
Definition getitem_key (v : json) (k : string) : result json :=
  match v with
  | JObj fields =>
      match lookup k fields with
      | Some x => Ok x
      | None => Raise KeyError
      end
  | _ => Raise TypeError
  end.

(** The characters [str.strip()] removes, among the code points below 256. *)
Definition is_space (c : ascii) : bool :=
  let n := nat_of_ascii c in
  ((9 <=? n) && (n <=? 13) || (28 <=? n) && (n <=? 32)
   || (n =? 133) || (n =? 160))%nat.

Fixpoint lstrip (s : string) : string :=
  match s with
  | EmptyString => EmptyString
  | String c s' => if is_space c then lstrip s' else s
  end.

Fixpoint rstrip (s : string) : string :=
  match s with
  | EmptyString => EmptyString
  | String c s' =>
      match rstrip s' with
      | EmptyString => if is_space c then EmptyString else String c EmptyString
      | r => String c r
      end
  end.

Definition strip (s : string) : string := rstrip (lstrip s).

(** [v.strip()]: only a string has the method. *)
Definition strip_method (v : json) : result string :=
  match v with
  | JStr s => Ok (strip s)
  | _ => Raise AttributeError
  end.

(** ** The process state *)

(** The loaded sentence-transformer model, seen as the function from a
    text to its embedding. *)
Definition Embedder : Type := string -> vector.

(** [model.encode(texts)]: one row per text, in order. *)
Definition encode (m : Embedder) (texts : list string) : matrix := map m texts.

Record KnowledgeEntry : Type := {
  question : string;
  answer : string
}.

(** The three module globals, the history file [data/chat_history.json]
    ([None] when the file does not exist, otherwise the JSON document it
    holds) and the clock read by [datetime.now()], counted in readings. *)
Record World : Type := {
  model : option Embedder;
  knowledge_base : option (list KnowledgeEntry);
  knowledge_embeddings : option matrix;
  history_file : option json;
  clock : nat
}.

Definition set_model (w : World) (m : Embedder) : World :=
  {| model := Some m;
     knowledge_base := knowledge_base w;
     knowledge_embeddings := knowledge_embeddings w;
     history_file := history_file w;
     clock := clock w |}.

Definition set_knowledge_base (w : World) (kb : list KnowledgeEntry) : World :=
  {| model := model w;
     knowledge_base := Some kb;
     knowledge_embeddings := knowledge_embeddings w;
     history_file := history_file w;
     clock := clock w |}.

Definition set_knowledge_embeddings (w : World) (E : matrix) : World :=
  {| model := model w;
     knowledge_base := knowledge_base w;
     knowledge_embeddings := Some E;
     history_file := history_file w;
     clock := clock w |}.

Definition set_history_file (w : World) (h : json) : World :=
  {| model := model w;
     knowledge_base := knowledge_base w;
     knowledge_embeddings := knowledge_embeddings w;
     history_file := Some h;
     clock := clock w |}.

Definition tick (w : World) : World :=
  {| model := model w;
     knowledge_base := knowledge_base w;
     knowledge_embeddings := knowledge_embeddings w;
     history_file := history_file w;
     clock := S (clock w) |}.

(** A computation that may change the world and may raise; the world at
    the point of the raise is kept. *)
Definition M (A : Type) : Type := World -> result A * World.

Definition ret {A : Type} (a : A) : M A := fun w => (Ok a, w).

Definition bind {A B : Type} (c : M A) (k : A -> M B) : M B :=
  fun w =>
    match c w with
    | (Ok a, w') => k a w'
    | (Raise e, w') => (Raise e, w')
    end.

Definition lift {A : Type} (r : result A) : M A := fun w => (r, w).

Definition get : M World := fun w => (Ok w, w).

Definition modify (f : World -> World) : M unit := fun w => (Ok tt, f w).

(** [try: c except Exception: h]. *)
Definition try_except {A : Type} (c : M A) (h : exn -> M A) : M A :=
  fun w =>
    match c w with
    | (Ok a, w') => (Ok a, w')
    | (Raise e, w') => h e w'
    end.

Declare Scope M_scope.
Delimit Scope M_scope with M.
Notation "x <- c ;; k" := (bind c (fun x => k))
  (at level 61, c at next level, right associativity) : M_scope.
Notation "' p <- c ;; k" := (bind c (fun x => let 'p := x in k))
  (at level 61, p pattern, c at next level, right associativity) : M_scope.
Notation "c ;; k" := (bind c (fun _ => k))
  (at level 61, right associativity) : M_scope.

(** [datetime.now().isoformat()]: the reading of the clock, as text. *)
Definition isoformat (t : nat) : string := NilEmpty.string_of_uint (Nat.to_uint t).

Definition datetime_now : M string :=
  fun w => (Ok (isoformat (clock w)), tick w).

(** ** Python operations on the history value *)

(** [len(v)]. *)
Definition len (v : json) : result nat :=
  match v with
  | JArr items => Ok (List.length items)
  | JObj fields => Ok (List.length fields)
  | JStr s => Ok (String.length s)
  | _ => Raise TypeError
  end.

(** [v.append(x)]: only a list has the method. *)
Definition append_method (v x : json) : result json :=
  match v with
  | JArr items => Ok (JArr (items ++ [x]))
  | _ => Raise AttributeError
  end.

(** [v[-n:]]: the last [n] elements of a list or characters of a string
    (all of them when there are fewer); other values cannot be sliced. *)
Definition slice_last (n : nat) (v : json) : result json :=
  match v with
  | JArr items => Ok (JArr (skipn (List.length items - n) items))
  | JStr s => Ok (JStr (substring (String.length s - n) n s))
  | _ => Raise TypeError
  end.

(** ** Responses *)

Record Response : Type := {
  body : json;
  status : nat
}.

(** [jsonify(d)] and [jsonify(d), code]. *)
Definition jsonify (d : json) : Response := {| body := d; status := 200 |}.
Definition with_status (r : Response) (code : nat) : Response :=
  {| body := body r; status := code |}.

(** ** The program *)

Definition fallback_answer : string :=
  "I'm sorry, I don't have information about that specific topic. Could you try rephrasing your question or ask about productivity, remote work, task prioritization, startup funding, or professional development?".

(** The list literal of [load_knowledge_base]. *)
Definition professional_knowledge_base : list KnowledgeEntry :=
  [ {| question := "How do I prioritize tasks effectively?";
       answer := "Use the Eisenhower Matrix: categorize tasks by urgency and importance. Focus on important-urgent tasks first, schedule important-not urgent tasks, delegate urgent-not important tasks, and eliminate neither urgent nor important tasks." |};
    {| question := "What are the best practices for remote work productivity?";
       answer := "Set up a dedicated workspace, maintain regular hours, take frequent breaks, communicate clearly with your team, use productivity tools like task managers, and establish boundaries between work and personal life." |};
    {| question := "How do I manage time better during busy periods?";
       answer := "Use time-blocking to schedule focused work sessions, batch similar tasks together, minimize multitasking, set realistic deadlines, and regularly review and adjust your schedule based on what works best." |};
    {| question := "What should I consider when seeking startup funding?";
       answer := "Prepare a solid business plan, know your market and competition, have clear financial projections, build a strong team, create a minimum viable product, and research different funding options like angel investors, VCs, or crowdfunding." |};
    {| question := "How do I handle work-life balance?";
       answer := "Set clear boundaries between work and personal time, learn to say no to non-essential commitments, prioritize self-care and health, communicate your limits to colleagues, and regularly assess and adjust your workload." |};
    {| question := "What are effective communication strategies in the workplace?";
       answer := "Practice active listening, be clear and concise in your messaging, choose the right communication channel for each situation, provide regular updates on projects, and ask clarifying questions when needed." |};
    {| question := "How do I stay motivated during challenging projects?";
       answer := "Break large projects into smaller milestones, celebrate small wins, maintain a growth mindset, seek feedback and support from colleagues, and remind yourself of the project's purpose and impact." |};
    {| question := "What skills should I develop for career advancement?";
       answer := "Focus on both technical skills relevant to your field and soft skills like leadership, communication, problem-solving, and adaptability. Stay updated with industry trends and consider pursuing relevant certifications." |};
    {| question := "How do I build a professional network effectively?";
       answer := "Attend industry events and conferences, engage on professional social media platforms, offer help and value to others, maintain existing relationships, and follow up consistently with new connections." |};
    {| question := "What are the key elements of a successful presentation?";
       answer := "Know your audience and tailor your content accordingly, have a clear structure with opening, body, and conclusion, use visual aids effectively, practice your delivery, engage with your audience, and prepare for questions." |} ].

(** [model.encode]: the attribute lookup fails on [None]. *)
Definition encode_method (m : option Embedder) : result (list string -> matrix) :=
  match m with
  | Some f => Ok (encode f)
  | None => Raise AttributeError
  end.

(** [knowledge_base[i]]: [None] cannot be subscripted. *)
Definition subscript (kb : option (list KnowledgeEntry)) (i : nat)
  : result KnowledgeEntry :=
  match kb with
  | Some entries => getitem entries i
  | None => Raise TypeError
  end.

(** Lines 84-92 of [find_best_answer]: the index of the best match and its
    similarity. *)
Definition best_match (w : World) (user_question : string) : result (nat * R) :=
  (enc <- encode_method (model w) ;;
   let user_embedding := enc [user_question] in
   K <- cosine_similarity user_embedding (knowledge_embeddings w) ;;
   similarities <- getitem K 0 ;;
   best_match_idx <- argmax similarities ;;
   confidence <- getitem similarities best_match_idx ;;
   Ok (best_match_idx, confidence))%result.

(** [find_best_answer(user_question)]; it reads the three globals and
    assigns none of them. *)
Definition find_best_answer (w : World) (user_question : string)
  : result (string * R) :=
  ('(best_match_idx, confidence) <- best_match w user_question ;;
   if Rgt_dec confidence (3 / 10) then
     entry <- subscript (knowledge_base w) best_match_idx ;;
     Ok (answer entry, confidence)
   else
     Ok (fallback_answer, 0))%result.

(** [save_chat_history(question, answer)]. *)
Definition save_chat_history (q a : string) : M unit :=
  (w <- get ;;
   let history :=
     match history_file w with
     | Some h => h
     | None => JArr []
     end in
   t <- datetime_now ;;
   let new_entry :=
     JObj [("timestamp", JStr t); ("question", JStr q); ("answer", JStr a)] in
   history <- lift (append_method history new_entry) ;;
   history <- lift (slice_last 50 history) ;;
   modify (fun w' => set_history_file w' history))%M.

Definition error_400 (msg : string) : Response :=
  with_status
    (jsonify (JObj [("error", JStr msg); ("answer", JStr "");
                    ("confidence", JFloat 0)]))
    400.

Definition error_500 : Response :=
  with_status
    (jsonify (JObj [("error", JStr "Internal server error");
                    ("answer", JStr "Sorry, there was an error processing your question. Please try again.");
                    ("confidence", JFloat 0)]))
    500.

(** [ask_question()], the handler of [POST /ask]; [get_json] is what
    [request.get_json()] does on the request: the parsed body, or a raise. *)
Definition ask_question (get_json : result json) : M Response :=
  try_except
    (data <- lift get_json ;;
     missing <- lift (if negb (truthy data) then Ok true
                      else (b <- contains data "question" ;; Ok (negb b))%result) ;;
     if (missing : bool) then ret (error_400 "Question is required")
     else
       q <- lift (getitem_key data "question") ;;
       user_question <- lift (strip_method q) ;;
       if negb (truthy (JStr user_question)) then
         ret (error_400 "Question cannot be empty")
       else
         w <- get ;;
         '(ans, confidence) <- lift (find_best_answer w user_question) ;;
         save_chat_history user_question ans ;;
         t <- datetime_now ;;
         ret (jsonify (JObj [("question", JStr user_question);
                             ("answer", JStr ans);
                             ("confidence", JFloat confidence);
                             ("timestamp", JStr t)])))%M
    (fun _ => ret error_500).

(** [get_chat_history()], the handler of [GET /history]. *)
Definition get_chat_history : M Response :=
  try_except
    (w <- get ;;
     match history_file w with
     | Some history =>
         n <- lift (len history) ;;
         recent_history <- lift (if (10 <? n)%nat then slice_last 10 history
                                 else Ok history) ;;
         ret (jsonify (JObj [("history", recent_history)]))
     | None => ret (jsonify (JObj [("history", JArr [])]))
     end)%M
    (fun _ => ret (jsonify (JObj [("error", JStr "Error retrieving chat history");
                                  ("history", JArr [])]))).

Definition is_not_none {A : Type} (o : option A) : bool :=
  match o with Some _ => true | None => false end.

(** [health_check()], the handler of [GET /health]. *)
Definition health_check : M Response :=
  (w <- get ;;
   ret (jsonify (JObj [("status", JStr "healthy");
                       ("model_loaded", JBool (is_not_none (model w)));
                       ("knowledge_base_loaded",
                        JBool (is_not_none (knowledge_base w)))])))%M.

Inductive Request : Type :=
| PostAsk (get_json : result json)
| GetHistory
| GetHealth.

Definition handle (r : Request) : M Response :=
  match r with
  | PostAsk get_json => ask_question get_json
  | GetHistory => get_chat_history
  | GetHealth => health_check
  end.

(** The world after the routes have served the requests [rs] in order. *)
Fixpoint serve (rs : list Request) (w : World) : World :=
  match rs with
  | [] => w
  | r :: rs' => serve rs' (snd (handle r w))
  end.

Section Startup.

(** The constructor [SentenceTransformer(name)]: it gives the model, or
    raises when the model cannot be obtained. *)
Variable SentenceTransformer : string -> result Embedder.

(** [load_model()]. *)
Definition load_model : M unit :=
  (m <- lift (SentenceTransformer "all-MiniLM-L6-v2") ;;
   modify (fun w => set_model w m))%M.

(** [load_knowledge_base()]. *)
Definition load_knowledge_base : M unit :=
  (modify (fun w => set_knowledge_base w professional_knowledge_base) ;;
   let questions := map question professional_knowledge_base in
   w <- get ;;
   enc <- lift (encode_method (model w)) ;;
   modify (fun w' => set_knowledge_embeddings w' (enc questions)))%M.

(** The two calls of the [__main__] block. *)
Definition startup : M unit :=
  (load_model ;; load_knowledge_base)%M.

End Startup.

(** ** Vocabulary of the statements *)

(** The field [k] of a response body. *)
Definition field (k : string) (r : Response) : option json :=
  match body r with
  | JObj fields => lookup k fields
  | _ => None
  end.

(** Two worlds with the same model, knowledge base and embedding table. *)
Definition same_globals (w w' : World) : Prop :=
  model w' = model w
  /\ knowledge_base w' = knowledge_base w
  /\ knowledge_embeddings w' = knowledge_embeddings w.

(** A computation that leaves these three as they are, whatever else it
    changes and whether or not it raises. *)
Definition keeps_globals {A : Type} (c : M A) : Prop :=
  forall w, same_globals w (snd (c w)).

(** The state [load_model] and [load_knowledge_base] establish: a model,
    a knowledge base, and one embedding per question, in order. *)
Definition ready (w : World) (m : Embedder) (kb : list KnowledgeEntry) : Prop :=
  model w = Some m
  /\ knowledge_base w = Some kb
  /\ knowledge_embeddings w = Some (encode m (map question kb)).

(** The model returns arrays of one fixed, positive number of columns. *)
Definition fixed_dimension (m : Embedder) (D : nat) : Prop :=
  (0 < D)%nat /\ forall s, List.length (m s) = D.

(** ** Concrete worlds and models, for the examples *)

(** A fresh process: nothing loaded, no history file. *)
Definition sample_world : World :=
  {| model := None; knowledge_base := None; knowledge_embeddings := None;
     history_file := None; clock := 0 |}.

(** A process whose history file holds 50 records. *)
Definition sample_history : list json :=
  map (fun n => JObj [("timestamp", JStr (isoformat n));
                      ("question", JStr "q"); ("answer", JStr "a")])
      (seq 0 50).

Definition full_log_world : World :=
  {| model := None; knowledge_base := None; knowledge_embeddings := None;
     history_file := Some (JArr sample_history); clock := 50 |}.

(** A model that embeds the empty text as the zero vector. *)
Definition blank_embedder : Embedder :=
  fun s => if s =? "" then [0; 0] else [1; 0].
Definition constant_embedder : Embedder := fun _ => [1].

(** The world after [startup] with the model [m], from a fresh process. *)
Definition started (m : Embedder) : World :=
  snd (startup (fun _ => Ok m) sample_world).

(** A world with a model and an empty knowledge base and table. *)
Definition empty_world (m : Embedder) : World :=
  {| model := Some m; knowledge_base := Some [];
     knowledge_embeddings := Some (encode m (map question []));
     history_file := None; clock := 0 |}.

Definition entry (i : nat) : KnowledgeEntry :=
  nth i professional_knowledge_base {| question := ""; answer := "" |}.

(** ** Vocabulary of the properties of the handlers *)

(** Whether [save_chat_history] can append: the history file is missing
    or holds a JSON array. *)
Definition history_is_list (w : World) : bool :=
  match history_file w with
  | None => true
  | Some (JArr _) => true
  | Some _ => false
  end.

(** The records of the history file, none when it is missing. *)
Definition history_list (w : World) : list json :=
  match history_file w with
  | Some (JArr items) => items
  | _ => []
  end.

(** The last [n] elements of a list. *)
Definition last_n {A : Type} (n : nat) (l : list A) : list A :=
  skipn (List.length l - n) l.

(** The record [save_chat_history] writes at clock reading [t]. *)
Definition history_record (t : nat) (q a : string) : json :=
  JObj [("timestamp", JStr (isoformat t)); ("question", JStr q);
        ("answer", JStr a)].

(** The body of a 200 answer of [POST /ask]. *)
Definition answer_body (q a : string) (c : R) (t : nat) : json :=
  JObj [("question", JStr q); ("answer", JStr a); ("confidence", JFloat c);
        ("timestamp", JStr (isoformat t))].

(** The part of [ask_question] before [find_best_answer]: the response
    it ends with, or the stripped question it goes on with. *)
Definition validate (get_json : result json) : Response + string :=
  match get_json with
  | Raise _ => inl error_500
  | Ok data =>
      if negb (truthy data) then inl (error_400 "Question is required")
      else
        match contains data "question" with
        | Raise _ => inl error_500
        | Ok false => inl (error_400 "Question is required")
        | Ok true =>
            match getitem_key data "question" with
            | Raise _ => inl error_500
            | Ok q =>
                match strip_method q with
                | Raise _ => inl error_500
                | Ok user_question =>
                    if negb (truthy (JStr user_question))
                    then inl (error_400 "Question cannot be empty")
                    else inr user_question
                end
            end
        end
  end.

(** The part of [ask_question] from [find_best_answer] on. *)
Definition answer_path (user_question : string) : M Response :=
  try_except
    (w <- get ;;
     '(ans, confidence) <- lift (find_best_answer w user_question) ;;
     save_chat_history user_question ans ;;
     t <- datetime_now ;;
     ret (jsonify (JObj [("question", JStr user_question);
                         ("answer", JStr ans);
                         ("confidence", JFloat confidence);
                         ("timestamp", JStr t)])))%M
    (fun _ => ret error_500).

(** A [POST /ask] whose body is an object with the question [q]. *)
Definition ask (q : string) : Request :=
  PostAsk (Ok (JObj [("question", JStr q)])).

(** The answer text [find_best_answer] gives, empty when it raises. *)
Definition answer_text (w : World) (q : string) : string :=
  match find_best_answer w q with
  | Ok (a, _) => a
  | Raise _ => ""
  end.

(** The records that the questions [qs], asked one after the other from
    clock reading [t], add to the history: each request reads the clock
    twice. *)
Fixpoint history_records (w : World) (t : nat) (qs : list string) : list json :=
  match qs with
  | [] => []
  | q :: qs' =>
      history_record t (strip q) (answer_text w (strip q))
      :: history_records w (S (S t)) qs'
  end.

(** A process with the model loaded whose history file holds an empty
    JSON object instead of a list. *)
Definition odd_history_world : World :=
  set_history_file (started constant_embedder) (JObj []).

(** * Properties *)

(** ** The Python operations on concrete values *)

Example strip_example : strip "  How do I focus?  " = "How do I focus?".
Proof. reflexivity. Qed.

Example strip_blank : strip (String "009" (String "010" " ")) = "".
Proof. reflexivity. Qed.

Example contains_examples :
  contains (JObj [("question", JStr "hi")]) "question" = Ok true
  /\ contains (JObj [("text", JStr "hi")]) "question" = Ok false
  /\ contains (JArr [JStr "question"]) "question" = Ok true
  /\ contains (JStr "no question here") "question" = Ok true
  /\ contains (JInt 5) "question" = Raise TypeError.
Proof. repeat split. Qed.

Example slice_last_examples :
  slice_last 2 (JArr [JInt 1; JInt 2; JInt 3]) = Ok (JArr [JInt 2; JInt 3])
  /\ slice_last 5 (JArr [JInt 1; JInt 2; JInt 3])
     = Ok (JArr [JInt 1; JInt 2; JInt 3])
  /\ slice_last 2 (JStr "abc") = Ok (JStr "bc")
  /\ slice_last 2 (JObj []) = Raise TypeError.
Proof. repeat split. Qed.

(** Among equal maxima [np.argmax] returns the first. *)
Example argmax_tie : argmax [1; 3; 3; 2] = Ok 1%nat.
Proof.
  unfold argmax, argmax_from.
  repeat (destruct (Rgt_dec _ _); try lra). reflexivity.
Qed.

(** ** The chat-history file *)

Lemma skipn_snoc {A : Type} (n : nat) (l : list A) (x : A) :
  (n <= List.length l)%nat -> skipn n (l ++ [x]) = skipn n l ++ [x].
Proof.
  intros Hn. rewrite skipn_app.
  replace (n - List.length l)%nat with 0%nat by lia. reflexivity.
Qed.

Lemma slice_last_snoc {A : Type} (n : nat) (l : list A) (x : A) :
  skipn (List.length (l ++ [x]) - S n) (l ++ [x])
  = skipn (List.length l - n) l ++ [x].
Proof.
  rewrite length_app. cbn [List.length].
  replace (List.length l + 1 - S n)%nat with (List.length l - n)%nat by lia.
  apply skipn_snoc. lia.
Qed.

(** What [save_chat_history] does to a world whose history file is
    missing or holds a JSON array [old]. *)
Lemma save_chat_history_array (w : World) (q a : string) (old : list json) :
  history_file w = Some (JArr old) \/ (history_file w = None /\ old = []) ->
  save_chat_history q a w
  = (Ok tt,
     set_history_file (tick w)
       (JArr (skipn (List.length old - 49) old
              ++ [JObj [("timestamp", JStr (isoformat (clock w)));
                        ("question", JStr q); ("answer", JStr a)]]))).
Proof.
  intros H. unfold save_chat_history, bind, get, datetime_now, lift, modify.
  assert (Hh : match history_file w with Some h => h | None => JArr [] end
               = JArr old).
  { destruct H as [-> | [-> ->]]; reflexivity. }
  rewrite Hh. cbn [append_method slice_last].
  rewrite (slice_last_snoc 49). reflexivity.
Qed.

(** C8.  [save_chat_history] on a history of records [old] (or on a
    missing file, [old = []]) writes the newest records only: the file
    then holds [kept], which has at most 50 elements (exactly 50 once
    [old] has 49 or more), is what remains of [old] followed by the new
    record after dropping a prefix [evicted] of oldest records, in the
    same order, and ends with the new record. *)
Theorem save_chat_history_caps_at_50 (w : World) (q a : string) (old : list json) :
  history_file w = Some (JArr old) \/ (history_file w = None /\ old = []) ->
  let new_entry := JObj [("timestamp", JStr (isoformat (clock w)));
                         ("question", JStr q); ("answer", JStr a)] in
  exists kept evicted : list json,
    fst (save_chat_history q a w) = Ok tt
    /\ history_file (snd (save_chat_history q a w)) = Some (JArr kept)
    /\ old ++ [new_entry] = evicted ++ kept
    /\ List.length kept = Nat.min 50 (S (List.length old))
    /\ List.length evicted = (S (List.length old) - 50)%nat
    /\ last kept JNull = new_entry.
Proof.
  intros H new_entry.
  exists (skipn (List.length old - 49) old ++ [new_entry]),
         (firstn (List.length old - 49) old).
  rewrite (save_chat_history_array w q a old H). cbn [fst snd].
  repeat split.
  - rewrite app_assoc, firstn_skipn. reflexivity.
  - rewrite length_app, length_skipn. cbn [List.length]. lia.
  - rewrite length_firstn. lia.
  - apply last_last.
Qed.

Lemma save_chat_history_caps_at_50_witness :
  exists kept evicted : list json,
    fst (save_chat_history "q" "a" full_log_world) = Ok tt
    /\ history_file (snd (save_chat_history "q" "a" full_log_world))
       = Some (JArr kept)
    /\ sample_history
         ++ [JObj [("timestamp", JStr (isoformat 50));
                   ("question", JStr "q"); ("answer", JStr "a")]]
       = evicted ++ kept
    /\ List.length kept = Nat.min 50 (S (List.length sample_history))
    /\ List.length evicted = (S (List.length sample_history) - 50)%nat
    /\ last kept JNull
       = JObj [("timestamp", JStr (isoformat 50));
               ("question", JStr "q"); ("answer", JStr "a")].
Proof.
  apply (save_chat_history_caps_at_50 full_log_world "q" "a" sample_history).
  left. reflexivity.
Defined.

(** On a log of 50 records the oldest one goes and the new one is last. *)
Example save_chat_history_full_log :
  history_file (snd (save_chat_history "q" "a" full_log_world))
  = Some (JArr (tl sample_history
                ++ [JObj [("timestamp", JStr "50");
                          ("question", JStr "q"); ("answer", JStr "a")]]))
  /\ List.length sample_history = 50%nat.
Proof. split; reflexivity. Qed.

(** ** Cosine similarity *)

Lemma dot_self_nonneg (a : vector) : 0 <= dot a a.
Proof.
  induction a as [|x a IH]; simpl; [lra | nra].
Qed.

Lemma dot_self_zero (a : vector) : dot a a = 0 -> Forall (fun x => x = 0) a.
Proof.
  induction a as [|x a IH]; simpl; intros H; constructor.
  - pose proof (dot_self_nonneg a). nra.
  - apply IH. pose proof (dot_self_nonneg a). nra.
Qed.

Lemma dot_zero_l (a b : vector) : Forall (fun x => x = 0) a -> dot a b = 0.
Proof.
  intros H. revert b. induction H as [|x a Hx _ IH]; intros b.
  - reflexivity.
  - destruct b as [|y b]; simpl; [reflexivity|]. rewrite IH, Hx. lra.
Qed.

Lemma dot_comm (a b : vector) : dot a b = dot b a.
Proof.
  revert b. induction a as [|x a IH]; intros [|y b]; simpl; try reflexivity.
  rewrite IH. lra.
Qed.

Lemma dot_scale (c d : R) (a b : vector) :
  dot (map (fun x => x / c) a) (map (fun y => y / d) b) = dot a b / (c * d).
Proof.
  revert b. induction a as [|x a IH]; intros [|y b]; simpl;
    try (unfold Rdiv; lra).
  rewrite IH. unfold Rdiv. rewrite Rinv_mult. lra.
Qed.

(** [2 (a . b) <= a . a + b . b], from [(x - y)^2 >= 0] componentwise. *)
Lemma dot_le_mean (a b : vector) : 2 * dot a b <= dot a a + dot b b.
Proof.
  revert b. induction a as [|x a IH]; intros [|y b]; simpl.
  - lra.
  - pose proof (dot_self_nonneg b). nra.
  - clear IH. pose proof (dot_self_nonneg a). nra.
  - specialize (IH b). pose proof (Rle_0_sqr (x - y)) as Hs.
    unfold Rsqr in Hs. lra.
Qed.

Lemma row_norm_nonneg (a : vector) : 0 <= row_norm a.
Proof. apply sqrt_pos. Qed.

Lemma row_norm_sqr (a : vector) : row_norm a * row_norm a = dot a a.
Proof. apply sqrt_sqrt, dot_self_nonneg. Qed.

Lemma row_norm_zero (a : vector) :
  row_norm a = 0 -> Forall (fun x => x = 0) a.
Proof.
  intros H. apply dot_self_zero. rewrite <- row_norm_sqr, H. lra.
Qed.

Lemma handle_zeros_in_scale_neq_0 (a : vector) :
  handle_zeros_in_scale (row_norm a) <> 0.
Proof.
  unfold handle_zeros_in_scale. destruct (Req_dec_T (row_norm a) 0); lra.
Qed.

Lemma normalize_zero (a : vector) :
  row_norm a = 0 -> Forall (fun x => x = 0) (normalize a).
Proof.
  intros H. pose proof (row_norm_zero a H) as Hz.
  unfold normalize. apply Forall_map.
  eapply Forall_impl; [|exact Hz]. cbv beta. intros x ->.
  unfold Rdiv. lra.
Qed.

(** The similarity with a row of zero length is 0 (and not a division by
    zero), on either side. *)
Lemma cosine_zero_l (x y : vector) : row_norm x = 0 -> cosine x y = 0.
Proof. intros H. apply dot_zero_l, normalize_zero, H. Qed.

Lemma cosine_zero_r (x y : vector) : row_norm y = 0 -> cosine x y = 0.
Proof.
  intros H. unfold cosine. rewrite dot_comm. apply dot_zero_l, normalize_zero, H.
Qed.

(** For rows of non-zero length this is the usual formula. *)
Lemma cosine_formula (x y : vector) :
  row_norm x <> 0 -> row_norm y <> 0 ->
  cosine x y = dot x y / (row_norm x * row_norm y).
Proof.
  intros Hx Hy. unfold cosine, normalize. rewrite dot_scale.
  unfold handle_zeros_in_scale.
  destruct (Req_dec_T (row_norm x) 0); [contradiction|].
  destruct (Req_dec_T (row_norm y) 0); [contradiction|]. reflexivity.
Qed.

Lemma cosine_self (x : vector) : row_norm x <> 0 -> cosine x x = 1.
Proof.
  intros Hx. rewrite (cosine_formula x x Hx Hx), <- row_norm_sqr.
  field. exact Hx.
Qed.

Lemma normalize_dot_self_le_1 (x : vector) :
  dot (normalize x) (normalize x) <= 1.
Proof.
  destruct (Req_dec_T (row_norm x) 0) as [Hz | Hnz].
  - rewrite (dot_zero_l _ _ (normalize_zero x Hz)). lra.
  - fold (cosine x x). rewrite (cosine_self x Hnz). lra.
Qed.

Lemma cosine_le_1 (x y : vector) : cosine x y <= 1.
Proof.
  unfold cosine.
  pose proof (dot_le_mean (normalize x) (normalize y)).
  pose proof (normalize_dot_self_le_1 x).
  pose proof (normalize_dot_self_le_1 y). lra.
Qed.

(** *** No division by zero in the kernel *)

Lemma row_norm_zero_vector (z : vector) :
  Forall (fun x => x = 0) z -> row_norm z = 0.
Proof.
  intros Hz. unfold row_norm. rewrite (dot_zero_l z z Hz). apply sqrt_0.
Qed.

Lemma dot_ieee_finite (a b : vector) :
  dot_ieee (map Finite a) (map Finite b) = Finite (dot a b).
Proof.
  revert b. induction a as [|x a IH]; intros [|y b]; cbn [map dot_ieee dot];
    try reflexivity.
  rewrite IH. reflexivity.
Qed.

(** With the zero norm replaced, every division of [normalize] is by a
    non-zero number. *)
Lemma normalize_ieee_finite (a : vector) :
  normalize_ieee a = map Finite (normalize a).
Proof.
  unfold normalize_ieee, normalize, ieee_div. rewrite map_map.
  apply map_ext. intros x.
  destruct (Req_dec_T (handle_zeros_in_scale (row_norm a)) 0) as [H0 | _].
  - exfalso. apply (handle_zeros_in_scale_neq_0 a H0).
  - reflexivity.
Qed.

(** So each entry of the kernel is finite, and is the real number
    [cosine] gives. *)
Lemma cosine_ieee_finite (x y : vector) :
  cosine_ieee x y = Finite (cosine x y).
Proof.
  unfold cosine_ieee, cosine. rewrite !normalize_ieee_finite.
  apply dot_ieee_finite.
Qed.

(** Without the replacement, a zero row makes the entry an infinity or
    NaN. *)
Lemma cosine_unguarded_zero (z u : vector) :
  Forall (fun x => x = 0) z -> z <> [] -> u <> [] ->
  cosine_unguarded z u = NonFinite.
Proof.
  intros Hz Hne Hu. unfold cosine_unguarded, normalize_unguarded.
  rewrite (row_norm_zero_vector z Hz).
  destruct z as [|x z]; [congruence|]. destruct u as [|y u]; [congruence|].
  cbn [map dot_ieee]. unfold ieee_div at 1.
  destruct (Req_dec_T 0 0) as [_ | H]; [reflexivity | now elim H].
Qed.

(** ** [np.argmax] *)

(** The scan keeps, for the prefix [pre] already read, the position and
    value of its first maximum. *)
Lemma argmax_from_spec (l pre : list R) (best_i : nat) (best : R) :
  nth_error pre best_i = Some best ->
  (forall j x, nth_error pre j = Some x -> x <= best) ->
  (forall j x, (j < best_i)%nat -> nth_error pre j = Some x -> x < best) ->
  exists c,
    nth_error (pre ++ l) (argmax_from best_i best (List.length pre) l) = Some c
    /\ (forall j x, nth_error (pre ++ l) j = Some x -> x <= c)
    /\ (forall j x, (j < argmax_from best_i best (List.length pre) l)%nat ->
                    nth_error (pre ++ l) j = Some x -> x < c).
Proof.
  revert pre best_i best.
  induction l as [|y l IH]; intros pre best_i best Hb Hmax Hfirst.
  - simpl. rewrite app_nil_r. exists best. auto.
  - assert (Hlen : List.length (pre ++ [y]) = S (List.length pre)).
    { rewrite length_app. simpl. lia. }
    assert (Hbi : (best_i < List.length pre)%nat).
    { apply nth_error_Some. rewrite Hb. discriminate. }
    replace (pre ++ y :: l) with ((pre ++ [y]) ++ l)
      by (rewrite <- app_assoc; reflexivity).
    simpl. destruct (Rgt_dec y best) as [Hgt | Hle].
    + rewrite <- Hlen. apply IH.
      * rewrite nth_error_app2, Nat.sub_diag by lia. reflexivity.
      * intros j x Hj.
        destruct (Nat.lt_ge_cases j (List.length pre)) as [Hlt | Hge].
        -- rewrite nth_error_app1 in Hj by exact Hlt.
           specialize (Hmax j x Hj). lra.
        -- rewrite nth_error_app2 in Hj by exact Hge.
           destruct (j - List.length pre)%nat as [|k]; simpl in Hj.
           ++ injection Hj as <-. lra.
           ++ destruct k; discriminate.
      * intros j x Hlt Hj.
        rewrite nth_error_app1 in Hj by lia.
        specialize (Hmax j x Hj). lra.
    + rewrite <- Hlen. apply IH.
      * rewrite nth_error_app1 by exact Hbi. exact Hb.
      * intros j x Hj.
        destruct (Nat.lt_ge_cases j (List.length pre)) as [Hlt | Hge].
        -- rewrite nth_error_app1 in Hj by exact Hlt. eauto.
        -- rewrite nth_error_app2 in Hj by exact Hge.
           destruct (j - List.length pre)%nat as [|k]; simpl in Hj.
           ++ injection Hj as <-. lra.
           ++ destruct k; discriminate.
      * intros j x Hlt Hj.
        rewrite nth_error_app1 in Hj by lia. eauto.
Qed.

(** On a non-empty array [np.argmax] returns the first position of the
    maximum. *)
Lemma argmax_spec (l : list R) :
  l <> [] ->
  exists k c,
    argmax l = Ok k
    /\ nth_error l k = Some c
    /\ (forall j x, nth_error l j = Some x -> x <= c)
    /\ (forall j x, (j < k)%nat -> nth_error l j = Some x -> x < c).
Proof.
  destruct l as [|x l]; [congruence | intros _].
  destruct (argmax_from_spec l [x] 0 x) as (c & Hc & Hmax & Hfirst).
  - reflexivity.
  - intros [|[|j]] y Hj; simpl in Hj; try discriminate.
    injection Hj as <-. lra.
  - intros j y Hj. lia.
  - exists (argmax_from 0 x 1 l), c. simpl in *. auto.
Qed.

(** ** The matching step *)

Lemma forallb_length_eq (d : nat) (E : matrix) :
  Forall (fun r => List.length r = d) E ->
  forallb (fun r => (List.length r =? d)%nat) E = true.
Proof.
  intros H. apply forallb_forall. intros r Hr.
  apply Nat.eqb_eq. rewrite Forall_forall in H. auto.
Qed.

Lemma check_pairwise_arrays_ok (x : vector) (E : matrix) :
  E <> [] -> (0 < List.length x)%nat ->
  Forall (fun r => List.length r = List.length x) E ->
  check_pairwise_arrays [x] E = Ok tt.
Proof.
  intros HE Hx Hdim. destruct E as [|r E]; [congruence|].
  unfold check_pairwise_arrays.
  rewrite (forallb_length_eq _ _ Hdim).
  cbn [forallb]. rewrite Nat.eqb_refl.
  apply Nat.ltb_lt in Hx. rewrite Hx. reflexivity.
Qed.

(** With a model loaded and a well-shaped, non-empty table, the matching
    step is [np.argmax] over the similarities of the query to the rows. *)
Lemma best_match_unfold (w : World) (m : Embedder) (E : matrix) (q : string) :
  model w = Some m -> knowledge_embeddings w = Some E ->
  E <> [] -> (0 < List.length (m q))%nat ->
  Forall (fun r => List.length r = List.length (m q)) E ->
  best_match w q
  = (k <- argmax (map (cosine (m q)) E) ;;
     c <- getitem (map (cosine (m q)) E) k ;;
     Ok (k, c))%result.
Proof.
  intros Hm HE Hne Hq Hdim. unfold best_match, cosine_similarity.
  rewrite Hm, HE. cbn [encode_method rbind encode map].
  rewrite (check_pairwise_arrays_ok _ _ Hne Hq Hdim). reflexivity.
Qed.

(** The matching step returns the first row of maximal similarity. *)
Lemma best_match_argmax (w : World) (m : Embedder) (E : matrix) (q : string) :
  model w = Some m -> knowledge_embeddings w = Some E ->
  E <> [] -> (0 < List.length (m q))%nat ->
  Forall (fun r => List.length r = List.length (m q)) E ->
  exists k v,
    best_match w q = Ok (k, cosine (m q) v)
    /\ nth_error E k = Some v
    /\ (forall j u, nth_error E j = Some u -> cosine (m q) u <= cosine (m q) v)
    /\ (forall j u, (j < k)%nat -> nth_error E j = Some u ->
                    cosine (m q) u < cosine (m q) v).
Proof.
  intros Hm HE Hne Hq Hdim.
  rewrite (best_match_unfold w m E q Hm HE Hne Hq Hdim).
  destruct (argmax_spec (map (cosine (m q)) E)) as (k & c & Hk & Hc & Hmax & Hfirst).
  { destruct E; [congruence | discriminate]. }
  rewrite Hk. cbn [rbind]. unfold getitem. rewrite Hc. cbn [rbind].
  rewrite nth_error_map in Hc.
  destruct (nth_error E k) as [v|] eqn:Hv; [|discriminate].
  injection Hc as <-. exists k, v.
  split; [reflexivity|]. split; [exact Hv|]. split.
  - intros j u Hj. apply (Hmax j). rewrite nth_error_map, Hj. reflexivity.
  - intros j u Hlt Hj. apply (Hfirst j); [exact Hlt|].
    rewrite nth_error_map, Hj. reflexivity.
Qed.

(** ** The threshold *)

Lemma find_best_answer_above (w : World) (q : string) (k : nat) (c : R)
      (e : KnowledgeEntry) :
  best_match w q = Ok (k, c) -> subscript (knowledge_base w) k = Ok e ->
  c > 3 / 10 -> find_best_answer w q = Ok (answer e, c).
Proof.
  intros Hb He Hc. unfold find_best_answer. rewrite Hb. cbn [rbind].
  destruct (Rgt_dec c (3 / 10)); [|contradiction].
  rewrite He. reflexivity.
Qed.

Lemma find_best_answer_below (w : World) (q : string) (k : nat) (c : R) :
  best_match w q = Ok (k, c) ->
  c <= 3 / 10 -> find_best_answer w q = Ok (fallback_answer, 0).
Proof.
  intros Hb Hc. unfold find_best_answer. rewrite Hb. cbn [rbind].
  destruct (Rgt_dec c (3 / 10)); [lra | reflexivity].
Qed.

(** C1.  When the matching step has produced the index [k] of an entry
    [e] of the knowledge base and the score [c], [find_best_answer]
    returns [e]'s answer with the score [c] exactly when [c > 0.3] (the
    pair returned on the other branch being told apart from it), and the
    fixed fallback text with confidence 0.0 when [c <= 0.3], so in
    particular at [c = 0.3]. *)
Theorem threshold_is_strict (w : World) (q : string) (k : nat) (c : R)
        (e : KnowledgeEntry) :
  best_match w q = Ok (k, c) ->
  subscript (knowledge_base w) k = Ok e ->
  (c > 3 / 10 <->
   find_best_answer w q = Ok (answer e, c)
   /\ (answer e, c) <> (fallback_answer, 0))
  /\ (c <= 3 / 10 -> find_best_answer w q = Ok (fallback_answer, 0))
  /\ (c = 3 / 10 -> find_best_answer w q = Ok (fallback_answer, 0)).
Proof.
  intros Hb He. split; [split|split].
  - intros Hc. split.
    + apply (find_best_answer_above w q k c e Hb He Hc).
    + intros Heq. injection Heq as _ ->. lra.
  - intros [Hr Hne]. destruct (Rle_or_lt c (3 / 10)) as [Hle | Hlt]; [|lra].
    exfalso. apply Hne.
    rewrite (find_best_answer_below w q k c Hb Hle) in Hr.
    injection Hr as <- <-. reflexivity.
  - apply (find_best_answer_below w q k c Hb).
  - intros ->. apply (find_best_answer_below w q k _ Hb). lra.
Qed.

(** C3.  For a non-empty embedding table [E] whose rows have the
    dimension of the query vector, the matching step returns an index
    [k] of [E] and the similarity of the query to row [k]; no row has a
    greater similarity, every row before [k] has a strictly smaller one,
    and [k] is the only index with these two properties. *)
Theorem best_match_first_maximum (w : World) (m : Embedder) (E : matrix)
        (q : string) :
  model w = Some m -> knowledge_embeddings w = Some E ->
  E <> [] -> (0 < List.length (m q))%nat ->
  Forall (fun r => List.length r = List.length (m q)) E ->
  exists k v,
    best_match w q = Ok (k, cosine (m q) v)
    /\ nth_error E k = Some v
    /\ (forall j u, nth_error E j = Some u -> cosine (m q) u <= cosine (m q) v)
    /\ (forall j u, (j < k)%nat -> nth_error E j = Some u ->
                    cosine (m q) u < cosine (m q) v)
    /\ (forall k' v',
          nth_error E k' = Some v' ->
          (forall j u, nth_error E j = Some u ->
                       cosine (m q) u <= cosine (m q) v') ->
          (forall j u, (j < k')%nat -> nth_error E j = Some u ->
                       cosine (m q) u < cosine (m q) v') ->
          k' = k).
Proof.
  intros Hm HE Hne Hq Hdim.
  destruct (best_match_argmax w m E q Hm HE Hne Hq Hdim)
    as (k & v & Hb & Hv & Hmax & Hfirst).
  exists k, v. do 4 (split; [assumption|]).
  intros k' v' Hv' Hmax' Hfirst'.
  destruct (Nat.lt_trichotomy k' k) as [Hlt | [Heq | Hgt]]; [|exact Heq|].
  - specialize (Hfirst k' v' Hlt Hv'). specialize (Hmax' k v Hv). lra.
  - specialize (Hfirst' k v Hgt Hv). specialize (Hmax k' v' Hv'). lra.
Qed.

(** ** The handlers do not assign the globals *)

Lemma same_globals_refl (w : World) : same_globals w w.
Proof. repeat split. Qed.

Lemma same_globals_trans (w1 w2 w3 : World) :
  same_globals w1 w2 -> same_globals w2 w3 -> same_globals w1 w3.
Proof.
  intros (H1 & H2 & H3) (H4 & H5 & H6). repeat split; congruence.
Qed.

Lemma keeps_ret {A : Type} (a : A) : keeps_globals (ret a).
Proof. intros w. apply same_globals_refl. Qed.

Lemma keeps_lift {A : Type} (r : result A) : keeps_globals (lift r).
Proof. intros w. apply same_globals_refl. Qed.

Lemma keeps_get : keeps_globals get.
Proof. intros w. apply same_globals_refl. Qed.

Lemma keeps_datetime_now : keeps_globals datetime_now.
Proof. intros w. repeat split. Qed.

Lemma keeps_set_history_file (h : json) :
  keeps_globals (modify (fun w => set_history_file w h)).
Proof. intros w. repeat split. Qed.

Lemma keeps_bind {A B : Type} (c : M A) (k : A -> M B) :
  keeps_globals c -> (forall a, keeps_globals (k a)) -> keeps_globals (bind c k).
Proof.
  intros Hc Hk w. unfold bind. specialize (Hc w).
  destruct (c w) as [[a | e] w1]; cbn [snd] in *.
  - apply (same_globals_trans w w1); [exact Hc | apply Hk].
  - exact Hc.
Qed.

Lemma keeps_try_except {A : Type} (c : M A) (h : exn -> M A) :
  keeps_globals c -> (forall e, keeps_globals (h e)) ->
  keeps_globals (try_except c h).
Proof.
  intros Hc Hh w. unfold try_except. specialize (Hc w).
  destruct (c w) as [[a | e] w1]; cbn [snd] in *.
  - exact Hc.
  - apply (same_globals_trans w w1); [exact Hc | apply Hh].
Qed.

Create HintDb frame.
#[local] Hint Resolve keeps_ret keeps_lift keeps_get keeps_datetime_now
  keeps_set_history_file : frame.

Ltac keeps_step :=
  first
    [ solve [auto with frame]
    | apply keeps_bind; [|intros ?]
    | apply keeps_try_except; [|intros ?]
    | match goal with
      | |- keeps_globals (if ?b then _ else _) => destruct b
      | |- keeps_globals (let '(_, _) := ?p in _) => destruct p
      | |- keeps_globals (match ?x with Some _ => _ | None => _ end) => destruct x
      end ].

Lemma keeps_save_chat_history (q a : string) :
  keeps_globals (save_chat_history q a).
Proof. unfold save_chat_history. repeat keeps_step. Qed.

Lemma keeps_ask_question (get_json : result json) :
  keeps_globals (ask_question get_json).
Proof.
  unfold ask_question.
  repeat first [apply keeps_save_chat_history | keeps_step].
Qed.

Lemma keeps_get_chat_history : keeps_globals get_chat_history.
Proof. unfold get_chat_history. repeat keeps_step. Qed.

Lemma keeps_health_check : keeps_globals health_check.
Proof. unfold health_check. repeat keeps_step. Qed.

Lemma keeps_handle (r : Request) : keeps_globals (handle r).
Proof.
  destruct r; cbn [handle].
  - apply keeps_ask_question.
  - apply keeps_get_chat_history.
  - apply keeps_health_check.
Qed.

Lemma same_globals_serve (rs : list Request) (w : World) :
  same_globals w (serve rs w).
Proof.
  revert w. induction rs as [|r rs IH]; intros w; cbn [serve].
  - apply same_globals_refl.
  - apply (same_globals_trans w (snd (handle r w))); [apply keeps_handle | apply IH].
Qed.

(** [find_best_answer] reads nothing but the three globals. *)
Lemma find_best_answer_same_globals (w w' : World) (q : string) :
  same_globals w w' -> find_best_answer w' q = find_best_answer w q.
Proof.
  intros (Hm & Hk & HE). unfold find_best_answer, best_match.
  rewrite Hm, Hk, HE. reflexivity.
Qed.

(** C9.  Serving any sequence of requests ([POST /ask], [GET /history],
    [GET /health]) leaves the model, the knowledge base and the embedding
    table as they were: after any number of queries the retrieval state
    is the one the sequence started from. *)
Theorem serve_keeps_retrieval_state (rs : list Request) (w : World) :
  model (serve rs w) = model w
  /\ knowledge_base (serve rs w) = knowledge_base w
  /\ knowledge_embeddings (serve rs w) = knowledge_embeddings w.
Proof. apply (same_globals_serve rs w). Qed.

(** C7.  The result of [find_best_answer] for a question is the same
    before and after serving any sequence of requests, although these
    change the history file and the clock: a repeated call with the same
    question returns the same answer and the same confidence. *)
Theorem find_best_answer_repeatable (rs : list Request) (w : World) (q : string) :
  find_best_answer (serve rs w) q = find_best_answer w q.
Proof.
  apply find_best_answer_same_globals, same_globals_serve.
Qed.

(** ** Worlds in which the model and the knowledge base are loaded *)

Lemma encode_rows_dimension (m : Embedder) (D : nat) (texts : list string)
      (q : string) :
  fixed_dimension m D ->
  Forall (fun r => List.length r = List.length (m q)) (encode m texts).
Proof.
  intros [_ Hd]. unfold encode. apply Forall_map, Forall_forall.
  intros s _. rewrite !Hd. reflexivity.
Qed.

Lemma encode_nonempty (m : Embedder) (kb : list KnowledgeEntry) :
  kb <> [] -> encode m (map question kb) <> [].
Proof. destruct kb; [congruence | discriminate]. Qed.

Lemma nth_error_encode (m : Embedder) (kb : list KnowledgeEntry) (k : nat) :
  nth_error (encode m (map question kb)) k
  = option_map (fun e => m (question e)) (nth_error kb k).
Proof.
  unfold encode. rewrite !nth_error_map.
  destruct (nth_error kb k); reflexivity.
Qed.

Section Ready.

Variables (w : World) (m : Embedder) (kb : list KnowledgeEntry) (D : nat).
Hypothesis w_ready : ready w m kb.
Hypothesis m_dimension : fixed_dimension m D.

(** In a ready world the matching step returns the first entry of maximal
    similarity to the question. *)
Lemma best_match_ready (q : string) :
  kb <> [] ->
  exists k e,
    best_match w q = Ok (k, cosine (m q) (m (question e)))
    /\ nth_error kb k = Some e
    /\ (forall j e', nth_error kb j = Some e' ->
          cosine (m q) (m (question e')) <= cosine (m q) (m (question e)))
    /\ (forall j e', (j < k)%nat -> nth_error kb j = Some e' ->
          cosine (m q) (m (question e')) < cosine (m q) (m (question e))).
Proof.
  intros Hne. destruct w_ready as (Hm & Hkb & HE).
  destruct (best_match_argmax w m _ q Hm HE) as (k & v & Hb & Hv & Hmax & Hfirst).
  - apply encode_nonempty, Hne.
  - destruct m_dimension as [HD0 HD]. rewrite HD. exact HD0.
  - apply (encode_rows_dimension m D), m_dimension.
  - rewrite nth_error_encode in Hv.
    destruct (nth_error kb k) as [e|] eqn:He; [|discriminate].
    injection Hv as <-. exists k, e.
    split; [exact Hb|]. split; [exact He|]. split.
    + intros j e' Hj. apply (Hmax j). rewrite nth_error_encode, Hj. reflexivity.
    + intros j e' Hlt Hj. apply (Hfirst j); [exact Hlt|].
      rewrite nth_error_encode, Hj. reflexivity.
Qed.

Lemma subscript_ready (k : nat) (e : KnowledgeEntry) :
  nth_error kb k = Some e -> subscript (knowledge_base w) k = Ok e.
Proof.
  intros He. destruct w_ready as (_ & Hkb & _). rewrite Hkb.
  unfold subscript, getitem. rewrite He. reflexivity.
Qed.

(** In a ready world [find_best_answer] returns, and returns either an
    answer of the knowledge base with a confidence above the threshold,
    or the fallback with confidence 0. *)
Lemma find_best_answer_ready (q : string) :
  kb <> [] ->
  exists a c,
    find_best_answer w q = Ok (a, c)
    /\ ((c > 3 / 10 /\ exists e, In e kb /\ a = answer e)
        \/ (a = fallback_answer /\ c = 0)).
Proof.
  intros Hne.
  destruct (best_match_ready q Hne) as (k & e & Hb & He & _).
  destruct (Rle_or_lt (cosine (m q) (m (question e))) (3 / 10)) as [Hle | Hgt].
  - exists fallback_answer, 0. split.
    + apply (find_best_answer_below w q k _ Hb Hle).
    + right. split; reflexivity.
  - exists (answer e), (cosine (m q) (m (question e))). split.
    + apply (find_best_answer_above w q k _ e Hb); [|lra].
      apply (subscript_ready k e He).
    + left. split; [lra|]. exists e. split; [|reflexivity].
      apply (nth_error_In kb k He).
Qed.

(** The question of an entry whose embedding has non-zero length, and
    similarity 1 to no earlier entry's, matches that entry with score 1:
    no similarity exceeds 1, and the first row to reach it wins. *)
Lemma best_match_self (i : nat) (e : KnowledgeEntry) :
  nth_error kb i = Some e ->
  row_norm (m (question e)) <> 0 ->
  (forall j e', (j < i)%nat -> nth_error kb j = Some e' ->
                cosine (m (question e)) (m (question e')) <> 1) ->
  best_match w (question e) = Ok (i, 1).
Proof.
  intros He Hnz Hearlier.
  assert (Hne : kb <> []) by (intros ->; destruct i; discriminate).
  destruct (best_match_ready (question e) Hne)
    as (k & ek & Hb & Hek & Hmax & Hfirst).
  pose proof (cosine_le_1 (m (question e)) (m (question ek))) as Hle.
  pose proof (Hmax i e He) as Hself. rewrite (cosine_self _ Hnz) in Hself.
  assert (Hc : cosine (m (question e)) (m (question ek)) = 1) by lra.
  destruct (Nat.lt_trichotomy k i) as [Hlt | [Heq | Hgt]].
  - exfalso. apply (Hearlier k ek Hlt Hek Hc).
  - subst k. rewrite Hc in Hb. exact Hb.
  - exfalso. specialize (Hfirst i e Hgt He).
    rewrite (cosine_self _ Hnz) in Hfirst. lra.
Qed.

End Ready.

(** A question whose embedding has zero length matches the first entry
    with similarity 0, and gets the fallback. *)
Lemma find_best_answer_zero_query (w : World) (m : Embedder) (E : matrix)
      (q : string) :
  model w = Some m -> knowledge_embeddings w = Some E ->
  E <> [] -> (0 < List.length (m q))%nat ->
  Forall (fun r => List.length r = List.length (m q)) E ->
  row_norm (m q) = 0 ->
  best_match w q = Ok (0%nat, 0)
  /\ find_best_answer w q = Ok (fallback_answer, 0).
Proof.
  intros Hm HE Hne Hq Hdim Hz.
  destruct (best_match_argmax w m E q Hm HE Hne Hq Hdim)
    as (k & v & Hb & Hv & _ & Hfirst).
  rewrite (cosine_zero_l _ v Hz) in Hb.
  assert (Hk : k = 0%nat).
  { destruct k as [|k]; [reflexivity|]. exfalso.
    destruct E as [|u E]; [congruence|].
    specialize (Hfirst 0%nat u (Nat.lt_0_succ k) eq_refl).
    rewrite !(cosine_zero_l _ _ Hz) in Hfirst. lra. }
  subst k. split; [exact Hb|].
  apply (find_best_answer_below w q 0 0 Hb). lra.
Qed.

(** The world after [startup]. *)
Lemma startup_ready (SentenceTransformer : string -> result Embedder)
      (m : Embedder) (w0 : World) :
  SentenceTransformer "all-MiniLM-L6-v2" = Ok m ->
  fst (startup SentenceTransformer w0) = Ok tt
  /\ ready (snd (startup SentenceTransformer w0)) m professional_knowledge_base.
Proof.
  intros HST. unfold startup, load_model, load_knowledge_base, bind, lift,
    modify, get.
  rewrite HST. cbn. repeat split.
Qed.

Lemma ready_same_globals (w w' : World) (m : Embedder)
      (kb : list KnowledgeEntry) :
  ready w m kb -> same_globals w w' -> ready w' m kb.
Proof.
  intros (Hm & Hkb & HE) (Hm' & Hkb' & HE'). repeat split; congruence.
Qed.

(** ** Degenerate and self queries *)

(** C4.  For a vector all of whose components are 0 (in exact
    arithmetic: a vector of zero magnitude), as the query and as a
    stored row, the kernel entry is the finite number 0, where dividing
    by the norm as it is would give an infinity or NaN: the library
    divides by 1 instead of the zero norm.  For a question with such an
    embedding, against any non-empty table of rows of the query's
    dimension, the matching step therefore returns (index 0 and) the
    score 0, and [find_best_answer] returns the fallback text with
    confidence 0.0; it does not raise. *)
Theorem zero_magnitude_query_falls_back (w : World) (m : Embedder)
        (E : matrix) (q : string) :
  model w = Some m -> knowledge_embeddings w = Some E ->
  E <> [] -> (0 < List.length (m q))%nat ->
  Forall (fun r => List.length r = List.length (m q)) E ->
  Forall (fun x => x = 0) (m q) ->
  (forall z u, Forall (fun x => x = 0) z ->
               cosine_ieee z u = Finite 0 /\ cosine_ieee u z = Finite 0)
  /\ (forall u, In u E ->
                cosine_ieee (m q) u = Finite 0
                /\ cosine_unguarded (m q) u = NonFinite)
  /\ (forall x y, cosine_ieee x y = Finite (cosine x y))
  /\ best_match w q = Ok (0%nat, 0)
  /\ find_best_answer w q = Ok (fallback_answer, 0).
Proof.
  intros Hm HE Hne Hq Hdim Hz.
  assert (Hzero : forall z u, Forall (fun x => x = 0) z ->
                              cosine_ieee z u = Finite 0
                              /\ cosine_ieee u z = Finite 0).
  { intros z u Hzz. pose proof (row_norm_zero_vector z Hzz) as Hn.
    rewrite !cosine_ieee_finite, (cosine_zero_l z u Hn), (cosine_zero_r u z Hn).
    split; reflexivity. }
  split; [exact Hzero|]. split; [|split; [exact cosine_ieee_finite|]].
  - intros u Hu. split; [apply (Hzero (m q) u Hz)|].
    rewrite Forall_forall in Hdim. specialize (Hdim u Hu).
    apply (cosine_unguarded_zero (m q) u Hz).
    + intros H0. rewrite H0 in Hq. cbn in Hq. lia.
    + intros H0. rewrite H0 in Hdim. cbn in Hdim. lia.
  - apply (find_best_answer_zero_query w m E q Hm HE Hne Hq Hdim).
    apply (row_norm_zero_vector _ Hz).
Qed.


(** C5.  When the model is obtained and returns arrays of a fixed
    positive dimension, [startup] completes, and from then on, after
    any sequence of requests, [find_best_answer] returns for every
    question: either the answer of an entry of the knowledge base with a
    confidence above 0.3, or the fallback text with confidence 0.0.  It
    raises for no question. *)
Theorem find_best_answer_total (SentenceTransformer : string -> result Embedder)
        (m : Embedder) (D : nat) (w0 : World) :
  SentenceTransformer "all-MiniLM-L6-v2" = Ok m ->
  fixed_dimension m D ->
  fst (startup SentenceTransformer w0) = Ok tt
  /\ forall (rs : list Request) (q : string),
       exists a c,
         find_best_answer (serve rs (snd (startup SentenceTransformer w0))) q
         = Ok (a, c)
         /\ ((c > 3 / 10
              /\ exists e, In e professional_knowledge_base /\ a = answer e)
             \/ (a = fallback_answer /\ c = 0)).
Proof.
  intros HST HD.
  destruct (startup_ready SentenceTransformer m w0 HST) as [Hok Hr].
  split; [exact Hok|]. intros rs q.
  apply (find_best_answer_ready _ m professional_knowledge_base D).
  - apply (ready_same_globals _ _ m _ Hr), same_globals_serve.
  - exact HD.
  - discriminate.
Qed.

(** C6, as the program has it.  With a model loaded,
    [load_knowledge_base] does not fail: it installs the ten entries of
    its literal and their embeddings, so the table it builds is never
    empty.  [find_best_answer] has no case for an empty table: on one,
    the similarity computation raises [ValueError]. *)
Theorem empty_table_is_not_handled (w : World) (m : Embedder) (q : string) :
  model w = Some m ->
  (fst (load_knowledge_base w) = Ok tt
   /\ ready (snd (load_knowledge_base w)) m professional_knowledge_base
   /\ List.length professional_knowledge_base = 10%nat)
  /\ (knowledge_embeddings w = Some [] ->
      best_match w q = Raise ValueError
      /\ find_best_answer w q = Raise ValueError).
Proof.
  intros Hm. split.
  - unfold load_knowledge_base, bind, modify, get, lift. cbn.
    rewrite Hm. cbn. repeat split. exact Hm.
  - intros HE.
    assert (Hb : best_match w q = Raise ValueError).
    { unfold best_match. rewrite Hm, HE. reflexivity. }
    split; [exact Hb|]. unfold find_best_answer. rewrite Hb. reflexivity.
Qed.

(** ** Requests without a usable question *)

Lemma lookup_some_nonempty (k : string) (fields : list (string * json)) (v : json) :
  lookup k fields = Some v -> truthy (JObj fields) = true.
Proof. destruct fields; [discriminate | reflexivity]. Qed.

(** C10, as the program has it.  When the parsed body is false as a
    Python value (null, false, zero, or an empty string, array or
    object), or is an object, array or string that does not contain
    ['question'], or is an object whose ['question'] is a string that is
    empty after [strip()], [ask_question] answers with status 400, an
    error message, an empty answer and confidence 0.0, in every world,
    loaded or not, and leaves the world, with its history file, as it
    was: neither [find_best_answer] nor [save_chat_history] is reached. *)
Theorem ask_question_rejects (w : World) (data : json) :
  truthy data = false
  \/ contains data "question" = Ok false
  \/ (exists fields s,
        data = JObj fields
        /\ lookup "question" fields = Some (JStr s)
        /\ strip s = "") ->
  exists r,
    ask_question (Ok data) w = (Ok r, w)
    /\ status r = 400%nat
    /\ (exists msg, field "error" r = Some (JStr msg))
    /\ field "answer" r = Some (JStr "")
    /\ field "confidence" r = Some (JFloat 0).
Proof.
  intros [Hf | [Hc | (fields & s & -> & Hl & Hs)]].
  - exists (error_400 "Question is required").
    split; [|repeat split; eexists; reflexivity].
    unfold ask_question, try_except, bind, lift, ret. rewrite Hf. reflexivity.
  - exists (error_400 "Question is required").
    split; [|repeat split; eexists; reflexivity].
    unfold ask_question, try_except, bind, lift, ret. rewrite Hc.
    destruct (truthy data); reflexivity.
  - exists (error_400 "Question cannot be empty").
    split; [|repeat split; eexists; reflexivity].
    unfold ask_question, try_except, bind, lift, ret.
    rewrite (lookup_some_nonempty _ _ _ Hl).
    cbn [negb contains getitem_key rbind]. rewrite Hl.
    cbn [negb strip_method]. rewrite Hs. reflexivity.
Qed.

(** ** Facts about the concrete worlds *)

Lemma started_ready (m : Embedder) :
  ready (started m) m professional_knowledge_base.
Proof. repeat split. Qed.


Lemma row_norm_constant_embedder (s : string) :
  row_norm (constant_embedder s) <> 0.
Proof.
  unfold row_norm, constant_embedder. cbn [dot].
  replace (1 * 1 + 0) with 1 by lra. rewrite sqrt_1. lra.
Qed.

Lemma fixed_dimension_constant : fixed_dimension constant_embedder 1.
Proof. split; [lia | reflexivity]. Qed.




Lemma threshold_is_strict_witness :
  (1 > 3 / 10 <->
   find_best_answer (started constant_embedder) (question (entry 0))
   = Ok (answer (entry 0), 1)
   /\ (answer (entry 0), 1) <> (fallback_answer, 0))
  /\ (1 <= 3 / 10 ->
      find_best_answer (started constant_embedder) (question (entry 0))
      = Ok (fallback_answer, 0))
  /\ (1 = 3 / 10 ->
      find_best_answer (started constant_embedder) (question (entry 0))
      = Ok (fallback_answer, 0)).
Proof.
  apply (threshold_is_strict (started constant_embedder)
           (question (entry 0)) 0 1 (entry 0)).
  - apply (best_match_self _ constant_embedder professional_knowledge_base
             1 (started_ready _) fixed_dimension_constant 0 (entry 0)).
    + reflexivity.
    + apply row_norm_constant_embedder.
    + intros j e' Hj. lia.
  - reflexivity.
Defined.

Lemma best_match_first_maximum_witness :
  exists k v,
    best_match (started constant_embedder) "hello"
    = Ok (k, cosine (constant_embedder "hello") v)
    /\ nth_error (encode constant_embedder
                    (map question professional_knowledge_base)) k = Some v
    /\ (forall j u,
          nth_error (encode constant_embedder
                       (map question professional_knowledge_base)) j = Some u ->
          cosine (constant_embedder "hello") u
          <= cosine (constant_embedder "hello") v)
    /\ (forall j u, (j < k)%nat ->
          nth_error (encode constant_embedder
                       (map question professional_knowledge_base)) j = Some u ->
          cosine (constant_embedder "hello") u
          < cosine (constant_embedder "hello") v)
    /\ (forall k' v',
          nth_error (encode constant_embedder
                       (map question professional_knowledge_base)) k' = Some v' ->
          (forall j u,
             nth_error (encode constant_embedder
                          (map question professional_knowledge_base)) j = Some u ->
             cosine (constant_embedder "hello") u
             <= cosine (constant_embedder "hello") v') ->
          (forall j u, (j < k')%nat ->
             nth_error (encode constant_embedder
                          (map question professional_knowledge_base)) j = Some u ->
             cosine (constant_embedder "hello") u
             < cosine (constant_embedder "hello") v') ->
          k' = k).
Proof.
  apply (best_match_first_maximum (started constant_embedder) constant_embedder).
  - reflexivity.
  - reflexivity.
  - discriminate.
  - cbn. lia.
  - apply (encode_rows_dimension constant_embedder 1), fixed_dimension_constant.
Defined.

Lemma fixed_dimension_blank : fixed_dimension blank_embedder 2.
Proof.
  split; [lia|]. intros s. unfold blank_embedder.
  destruct (s =? ""); reflexivity.
Qed.

Lemma zero_magnitude_query_falls_back_witness :
  (forall z u, Forall (fun x => x = 0) z ->
               cosine_ieee z u = Finite 0 /\ cosine_ieee u z = Finite 0)
  /\ (forall u,
        In u (encode blank_embedder (map question professional_knowledge_base)) ->
        cosine_ieee (blank_embedder "") u = Finite 0
        /\ cosine_unguarded (blank_embedder "") u = NonFinite)
  /\ (forall x y, cosine_ieee x y = Finite (cosine x y))
  /\ best_match (started blank_embedder) "" = Ok (0%nat, 0)
  /\ find_best_answer (started blank_embedder) "" = Ok (fallback_answer, 0).
Proof.
  apply (zero_magnitude_query_falls_back (started blank_embedder) blank_embedder
           (encode blank_embedder (map question professional_knowledge_base))).
  - reflexivity.
  - reflexivity.
  - discriminate.
  - cbn. lia.
  - apply (encode_rows_dimension blank_embedder 2), fixed_dimension_blank.
  - repeat constructor.
Defined.

(** The rows the zero query of this world is compared with are not
    zero. *)
Example blank_embedder_rows :
  encode blank_embedder (map question professional_knowledge_base)
  = repeat [1; 0] 10.
Proof. reflexivity. Qed.





Lemma find_best_answer_total_witness :
  fst (startup (fun _ => Ok constant_embedder) sample_world) = Ok tt
  /\ forall (rs : list Request) (q : string),
       exists a c,
         find_best_answer
           (serve rs (snd (startup (fun _ => Ok constant_embedder) sample_world))) q
         = Ok (a, c)
         /\ ((c > 3 / 10
              /\ exists e, In e professional_knowledge_base /\ a = answer e)
             \/ (a = fallback_answer /\ c = 0)).
Proof.
  apply (find_best_answer_total (fun _ => Ok constant_embedder)
           constant_embedder 1 sample_world).
  - reflexivity.
  - apply fixed_dimension_constant.
Defined.

Lemma empty_table_is_not_handled_witness :
  (fst (load_knowledge_base (empty_world constant_embedder)) = Ok tt
   /\ ready (snd (load_knowledge_base (empty_world constant_embedder)))
        constant_embedder professional_knowledge_base
   /\ List.length professional_knowledge_base = 10%nat)
  /\ (knowledge_embeddings (empty_world constant_embedder) = Some [] ->
      best_match (empty_world constant_embedder) "hello" = Raise ValueError
      /\ find_best_answer (empty_world constant_embedder) "hello"
         = Raise ValueError).
Proof.
  apply (empty_table_is_not_handled (empty_world constant_embedder)
           constant_embedder "hello").
  reflexivity.
Defined.

Lemma ask_question_rejects_witness :
  exists r,
    ask_question (Ok (JObj [("question", JStr "   ")])) (started constant_embedder)
    = (Ok r, started constant_embedder)
    /\ status r = 400%nat
    /\ (exists msg, field "error" r = Some (JStr msg))
    /\ field "answer" r = Some (JStr "")
    /\ field "confidence" r = Some (JFloat 0).
Proof.
  apply (ask_question_rejects (started constant_embedder)
           (JObj [("question", JStr "   ")])).
  right. right. exists [("question", JStr "   ")], "   ".
  repeat split.
Defined.

(** A request with a question, end to end: the answer is found, one
    record is written to the history file, and the clock is read twice. *)
Example ask_question_answers :
  ask_question (Ok (JObj [("question", JStr " How do I prioritize tasks effectively? ")]))
    (started constant_embedder)
  = (Ok (jsonify (JObj [("question", JStr (question (entry 0)));
                        ("answer", JStr (answer (entry 0)));
                        ("confidence", JFloat 1);
                        ("timestamp", JStr "1")])),
     tick (set_history_file (tick (started constant_embedder))
             (JArr [JObj [("timestamp", JStr "0");
                          ("question", JStr (question (entry 0)));
                          ("answer", JStr (answer (entry 0)))]]))).
Proof.
  assert (H : find_best_answer (started constant_embedder) (question (entry 0))
              = Ok (answer (entry 0), 1)).
  { apply (find_best_answer_above _ _ 0 1 (entry 0)); [| reflexivity | lra].
    apply (best_match_self _ constant_embedder professional_knowledge_base
             1 (started_ready _) fixed_dimension_constant 0 (entry 0)).
    - reflexivity.
    - apply row_norm_constant_embedder.
    - intros j e' Hj. lia. }
  unfold ask_question, try_except, bind, lift, get.
  cbn [truthy negb contains lookup String.eqb Ascii.eqb Bool.eqb getitem_key
       rbind strip_method].
  change (strip " How do I prioritize tasks effectively? ")
    with (question (entry 0)).
  cbn [truthy negb String.eqb question entry nth professional_knowledge_base].
  change "How do I prioritize tasks effectively?" with (question (entry 0)).
  rewrite H. reflexivity.
Qed.

(** When the model cannot be obtained, [startup] stops with the raise,
    nothing is loaded, and a question is answered with status 500. *)
Example startup_without_model :
  startup (fun _ => Raise OSError) sample_world = (Raise OSError, sample_world)
  /\ fst (health_check sample_world)
     = Ok (jsonify (JObj [("status", JStr "healthy");
                          ("model_loaded", JBool false);
                          ("knowledge_base_loaded", JBool false)]))
  /\ ask_question (Ok (JObj [("question", JStr "How?")])) sample_world
     = (Ok error_500, sample_world).
Proof. repeat split. Qed.

(** ** Where the stated claims fail *)


(** C6 as stated fails: on an empty embedding table the matching step
    raises instead of returning a result without an index. *)
Lemma empty_table_raises :
  knowledge_base (empty_world constant_embedder) = Some []
  /\ knowledge_embeddings (empty_world constant_embedder) = Some []
  /\ best_match (empty_world constant_embedder) "hello" = Raise ValueError
  /\ find_best_answer (empty_world constant_embedder) "hello" = Raise ValueError.
Proof. repeat split. Qed.

(** C10 as stated fails: a body that is a bare JSON number has no
    ['question'] field, and the membership test on it raises, so the
    answer is the 500 response with its apology text; so is the answer to
    an array that contains the string ['question']. *)
Lemma ask_question_non_object_body :
  ask_question (Ok (JInt 5)) (started constant_embedder)
  = (Ok error_500, started constant_embedder)
  /\ ask_question (Ok (JArr [JStr "question"])) (started constant_embedder)
     = (Ok error_500, started constant_embedder)
  /\ status error_500 = 500%nat
  /\ field "answer" error_500 <> Some (JStr "").
Proof.
  split; [reflexivity|]. split; [reflexivity|]. split; [reflexivity|].
  cbn. discriminate.
Qed.

(** * Further properties of the handlers *)

(** ** How [ask_question] and [save_chat_history] decompose *)

Lemma ask_question_validate (get_json : result json) (w : World) :
  ask_question get_json w
  = match validate get_json with
    | inl r => (Ok r, w)
    | inr user_question => answer_path user_question w
    end.
Proof.
  unfold ask_question, validate, answer_path, try_except, bind, lift, ret.
  destruct get_json as [data | e]; [|reflexivity].
  destruct (truthy data); cbn [negb]; [|reflexivity].
  destruct (contains data "question") as [[|] | e]; cbn [rbind negb];
    try reflexivity.
  destruct (getitem_key data "question") as [q | e]; [|reflexivity].
  destruct (strip_method q) as [u | e]; [|reflexivity].
  destruct (negb (truthy (JStr u))); reflexivity.
Qed.

Lemma history_is_list_spec (w : World) :
  history_is_list w = true ->
  history_file w = Some (JArr (history_list w))
  \/ (history_file w = None /\ history_list w = []).
Proof.
  unfold history_is_list, history_list.
  destruct (history_file w) as [[]|]; try discriminate; auto.
Qed.

(** [save_chat_history] writes the last 49 old records and the new one,
    or raises on a history that is not a list, after reading the clock. *)
Lemma save_chat_history_cases (q a : string) (w : World) :
  save_chat_history q a w
  = if history_is_list w
    then (Ok tt,
          set_history_file (tick w)
            (JArr (last_n 49 (history_list w)
                   ++ [history_record (clock w) q a])))
    else (Raise AttributeError, tick w).
Proof.
  destruct (history_is_list w) eqn:Hl.
  - apply save_chat_history_array, history_is_list_spec, Hl.
  - unfold history_is_list in Hl.
    unfold save_chat_history, bind, get, datetime_now, lift, modify.
    destruct (history_file w) as [[]|]; try discriminate; reflexivity.
Qed.

Lemma answer_path_cases (u : string) (w : World) :
  answer_path u w
  = match find_best_answer w u with
    | Raise _ => (Ok error_500, w)
    | Ok (a, c) =>
        if history_is_list w
        then (Ok (jsonify (answer_body u a c (S (clock w)))),
              tick (set_history_file (tick w)
                      (JArr (last_n 49 (history_list w)
                             ++ [history_record (clock w) u a]))))
        else (Ok error_500, tick w)
    end.
Proof.
  unfold answer_path, try_except, bind, get, lift.
  destruct (find_best_answer w u) as [[a c] | e]; [|reflexivity].
  rewrite save_chat_history_cases.
  destruct (history_is_list w); reflexivity.
Qed.

Lemma validate_object (fields : list (string * json)) (s : string) :
  lookup "question" fields = Some (JStr s) -> strip s <> "" ->
  validate (Ok (JObj fields)) = inr (strip s).
Proof.
  intros Hl Hs. unfold validate.
  rewrite (lookup_some_nonempty _ _ _ Hl).
  cbn [negb contains getitem_key]. rewrite Hl. cbn [strip_method truthy].
  apply String.eqb_neq in Hs. rewrite Hs. reflexivity.
Qed.

Lemma validate_inl_status (get_json : result json) (r : Response) :
  validate get_json = inl r -> status r = 400%nat \/ status r = 500%nat.
Proof.
  unfold validate.
  destruct get_json as [data | e]; [|intros [= <-]; right; reflexivity].
  destruct (negb (truthy data)); [intros [= <-]; left; reflexivity|].
  destruct (contains data "question") as [[|] | e];
    [| intros [= <-]; left; reflexivity | intros [= <-]; right; reflexivity].
  destruct (getitem_key data "question") as [q | e];
    [| intros [= <-]; right; reflexivity].
  destruct (strip_method q) as [u | e]; [| intros [= <-]; right; reflexivity].
  destruct (negb (truthy (JStr u))); [intros [= <-]; left; reflexivity|].
  discriminate.
Qed.

Lemma last_n_snoc {A : Type} (n : nat) (l : list A) (x : A) :
  last_n (S n) (l ++ [x]) = last_n n l ++ [x].
Proof. apply slice_last_snoc. Qed.

Lemma length_last_n {A : Type} (n : nat) (l : list A) :
  List.length (last_n n l) = Nat.min n (List.length l).
Proof. unfold last_n. rewrite length_skipn. lia. Qed.

Lemma last_n_all {A : Type} (n : nat) (l : list A) :
  (List.length l <= n)%nat -> last_n n l = l.
Proof.
  intros H. unfold last_n.
  replace (List.length l - n)%nat with 0%nat by lia. reflexivity.
Qed.

(** Keeping the last [n] twice, with more appended in between, is
    keeping the last [n] once. *)
Lemma last_n_app_last_n {A : Type} (n : nat) (l l' : list A) :
  last_n n (last_n n l ++ l') = last_n n (l ++ l').
Proof.
  destruct (Nat.le_gt_cases (List.length l) n) as [Hle | Hgt].
  - rewrite (last_n_all n l Hle). reflexivity.
  - assert (Hk : last_n n l ++ l' = skipn (List.length l - n) (l ++ l')).
    { unfold last_n. rewrite skipn_app.
      replace (List.length l - n - List.length l)%nat with 0%nat by lia.
      reflexivity. }
    unfold last_n at 1. rewrite length_app, length_last_n, Hk, skipn_skipn.
    unfold last_n. rewrite length_app. f_equal. lia.
Qed.

(** ** [POST /ask] *)

(** The answered request, step by step. *)
Lemma ask_question_answered (w : World) (fields : list (string * json))
        (s a : string) (c : R) :
  lookup "question" fields = Some (JStr s) ->
  strip s <> "" ->
  find_best_answer w (strip s) = Ok (a, c) ->
  history_is_list w = true ->
  ask_question (Ok (JObj fields)) w
  = (Ok (jsonify (answer_body (strip s) a c (S (clock w)))),
     tick (set_history_file (tick w)
             (JArr (last_n 49 (history_list w)
                    ++ [history_record (clock w) (strip s) a])))).
Proof.
  intros Hl Hs Hf Hh.
  rewrite ask_question_validate, (validate_object fields s Hl Hs).
  rewrite answer_path_cases, Hf, Hh. reflexivity.
Qed.

(** X1.  A request whose body is an object with a string question that
    is not blank, in a world where [find_best_answer] returns [(a, c)]
    for the stripped question and the history is a list or missing, is
    answered 200 with the stripped question, [a], [c] and the second
    clock reading; the history file then holds the last 49 old records
    followed by the record of this question, stamped with the first
    reading. *)
Theorem ask_question_success (w : World) (fields : list (string * json))
        (s a : string) (c : R) :
  lookup "question" fields = Some (JStr s) ->
  strip s <> "" ->
  find_best_answer w (strip s) = Ok (a, c) ->
  history_is_list w = true ->
  ask_question (Ok (JObj fields)) w
  = (Ok (jsonify (answer_body (strip s) a c (S (clock w)))),
     tick (set_history_file (tick w)
             (JArr (last_n 49 (history_list w)
                    ++ [history_record (clock w) (strip s) a])))).
Proof. apply ask_question_answered. Qed.

(** X2.  [ask_question] never raises: it answers every request with
    status 200, 400 or 500.  Unless the status is 200 the history file is
    left as it was; with status 200 it holds a list of at most 50 records
    that ends with a new one. *)
Theorem ask_question_status (get_json : result json) (w : World) :
  exists r,
    fst (ask_question get_json w) = Ok r
    /\ (status r = 200%nat \/ status r = 400%nat \/ status r = 500%nat)
    /\ (status r <> 200%nat ->
        history_file (snd (ask_question get_json w)) = history_file w)
    /\ (status r = 200%nat ->
        exists older q a,
          history_file (snd (ask_question get_json w))
          = Some (JArr (older ++ [history_record (clock w) q a]))
          /\ (List.length older < 50)%nat).
Proof.
  rewrite ask_question_validate.
  destruct (validate get_json) as [r | u] eqn:Hv.
  - exists r. cbn [fst snd]. split; [reflexivity|].
    destruct (validate_inl_status _ _ Hv) as [H | H]; rewrite H;
      (split; [auto|]); (split; [reflexivity | discriminate]).
  - rewrite answer_path_cases.
    destruct (find_best_answer w u) as [[a c] | e].
    + destruct (history_is_list w).
      * eexists. cbn [fst snd]. split; [reflexivity|].
        split; [left; reflexivity|]. split; [intros H; now elim H|].
        intros _. exists (last_n 49 (history_list w)), u, a.
        split; [reflexivity|]. rewrite length_last_n. lia.
      * exists error_500. cbn [fst snd]. split; [reflexivity|].
        split; [auto|]. split; [reflexivity | discriminate].
    + exists error_500. cbn [fst snd]. split; [reflexivity|].
      split; [auto|]. split; [reflexivity | discriminate].
Qed.

(** X3.  While the model is not loaded (the server started without the
    [__main__] block), [find_best_answer] raises on the missing
    [encode], and every request with a usable question is answered 500;
    nothing is written to the history. *)
Theorem ask_question_without_model (w : World) (fields : list (string * json))
        (s : string) :
  model w = None ->
  lookup "question" fields = Some (JStr s) ->
  strip s <> "" ->
  find_best_answer w (strip s) = Raise AttributeError
  /\ ask_question (Ok (JObj fields)) w = (Ok error_500, w).
Proof.
  intros Hm Hl Hs.
  assert (Hf : find_best_answer w (strip s) = Raise AttributeError).
  { unfold find_best_answer, best_match. rewrite Hm. reflexivity. }
  split; [exact Hf|].
  rewrite ask_question_validate, (validate_object fields s Hl Hs).
  rewrite answer_path_cases, Hf. reflexivity.
Qed.

(** ** [GET /history] and [GET /health] *)

Lemma get_chat_history_world (w : World) : snd (get_chat_history w) = w.
Proof.
  unfold get_chat_history, try_except, bind, get, lift, ret.
  destruct (history_file w) as [h|]; [|reflexivity].
  destruct (len h) as [n | e]; [|reflexivity].
  destruct (10 <? n)%nat; [|reflexivity].
  destruct (slice_last 10 h); reflexivity.
Qed.

Lemma get_chat_history_list (w : World) (l : list json) :
  history_file w = Some (JArr l) ->
  get_chat_history w
  = (Ok (jsonify (JObj [("history", JArr (last_n 10 l))])), w).
Proof.
  intros Hh. unfold get_chat_history, try_except, bind, get, lift, ret.
  rewrite Hh. cbn [len].
  destruct (10 <? List.length l)%nat eqn:Hn; cbn [slice_last].
  - reflexivity.
  - apply Nat.ltb_ge in Hn. rewrite (last_n_all 10 l Hn). reflexivity.
Qed.

(** X4.  On a history file that holds a list, [get_chat_history]
    answers 200 with the last ten records in their order (all of them
    when there are at most ten), and changes nothing. *)
Theorem get_chat_history_last_10 (w : World) (l : list json) :
  history_file w = Some (JArr l) ->
  get_chat_history w
  = (Ok (jsonify (JObj [("history", JArr (last_n 10 l))])), w)
  /\ List.length (last_n 10 l) = Nat.min 10 (List.length l)
  /\ exists older, l = older ++ last_n 10 l.
Proof.
  intros Hh. split; [|split].
  - apply (get_chat_history_list w l Hh).
  - apply length_last_n.
  - exists (firstn (List.length l - 10) l). unfold last_n.
    symmetry. apply firstn_skipn.
Qed.

(** X5.  [get_chat_history] never raises and never changes the world:
    whatever the history file holds, the answer has status 200 and a
    ['history'] field, which is the empty list when the file is missing
    and when its content has no length or cannot be sliced. *)
Theorem get_chat_history_read_only (w : World) :
  exists r h,
    get_chat_history w = (Ok r, w)
    /\ status r = 200%nat
    /\ field "history" r = Some h
    /\ (history_file w = None -> h = JArr [])
    /\ (forall v, history_file w = Some v ->
                  (len v = Raise TypeError
                   \/ exists fields, v = JObj fields
                                     /\ (10 < List.length fields)%nat) ->
                  h = JArr [] /\ exists msg, field "error" r = Some (JStr msg)).
Proof.
  unfold get_chat_history, try_except, bind, get, lift, ret.
  destruct (history_file w) as [v|].
  - destruct (len v) as [n | e] eqn:Hlen.
    + destruct (10 <? n)%nat eqn:Hn.
      * destruct (slice_last 10 v) as [recent | e] eqn:Hs.
        -- exists (jsonify (JObj [("history", recent)])), recent.
           do 3 (split; [reflexivity|]). split; [discriminate|].
           intros v' [= <-] [Hraise | (fields & -> & _)];
             [rewrite Hlen in Hraise | ]; discriminate.
        -- eexists. exists (JArr []).
           do 3 (split; [reflexivity|]). split; [discriminate|].
           intros _ _ _. split; [reflexivity | eexists; reflexivity].
      * exists (jsonify (JObj [("history", v)])), v.
        do 3 (split; [reflexivity|]). split; [discriminate|].
        intros v' [= <-] [Hraise | (fields & -> & Hlt)].
        -- rewrite Hlen in Hraise. discriminate.
        -- injection Hlen as <-. apply Nat.ltb_ge in Hn. lia.
    + eexists. exists (JArr []).
      do 3 (split; [reflexivity|]). split; [discriminate|].
      intros _ _ _. split; [reflexivity | eexists; reflexivity].
  - eexists. exists (JArr []).
    do 3 (split; [reflexivity|]). split; [reflexivity | discriminate].
Qed.

(** ** The history across requests *)

Lemma handle_world_cases (r : Request) (w : World) :
  snd (handle r w) = w
  \/ (history_is_list w = false /\ snd (handle r w) = tick w)
  \/ (history_is_list w = true
      /\ exists q a,
           snd (handle r w)
           = tick (set_history_file (tick w)
                     (JArr (last_n 49 (history_list w)
                            ++ [history_record (clock w) q a])))).
Proof.
  destruct r as [get_json | |]; cbn [handle].
  - rewrite ask_question_validate.
    destruct (validate get_json) as [r | u]; [left; reflexivity|].
    rewrite answer_path_cases.
    destruct (find_best_answer w u) as [[a c] | e]; [|left; reflexivity].
    destruct (history_is_list w) eqn:Hl.
    + right. right. split; [reflexivity|]. exists u, a. reflexivity.
    + right. left. split; reflexivity.
  - left. apply get_chat_history_world.
  - left. reflexivity.
Qed.

(** No request changes whether the history is a list. *)
Lemma history_is_list_handle (r : Request) (w : World) :
  history_is_list (snd (handle r w)) = history_is_list w.
Proof.
  destruct (handle_world_cases r w) as [-> | [[Hl ->] | [Hl (q & a & ->)]]].
  - reflexivity.
  - reflexivity.
  - rewrite Hl. reflexivity.
Qed.

Lemma history_is_list_serve (rs : list Request) (w : World) :
  history_is_list (serve rs w) = history_is_list w.
Proof.
  revert w. induction rs as [|r rs IH]; intros w; cbn [serve].
  - reflexivity.
  - rewrite IH. apply history_is_list_handle.
Qed.

(** A history that is not a list is never written. *)
Lemma history_file_serve_not_list (rs : list Request) (w : World) :
  history_is_list w = false -> history_file (serve rs w) = history_file w.
Proof.
  revert w. induction rs as [|r rs IH]; intros w Hl; cbn [serve].
  - reflexivity.
  - rewrite IH by (rewrite history_is_list_handle; exact Hl).
    destruct (handle_world_cases r w) as [-> | [[_ ->] | [Hl' _]]].
    + reflexivity.
    + reflexivity.
    + congruence.
Qed.

(** X6.  If the history file holds JSON that is not a list, every
    request with a usable question that [find_best_answer] can answer
    gets status 500, because [append] fails, and the file is never
    repaired: this stays so after any sequence of requests. *)
Theorem ask_question_history_not_list (w : World) (rs : list Request)
        (fields : list (string * json)) (s a : string) (c : R) :
  history_is_list w = false ->
  lookup "question" fields = Some (JStr s) ->
  strip s <> "" ->
  find_best_answer w (strip s) = Ok (a, c) ->
  ask_question (Ok (JObj fields)) (serve rs w)
  = (Ok error_500, tick (serve rs w))
  /\ history_file (serve rs w) = history_file w.
Proof.
  intros Hh Hl Hs Hf. split.
  - rewrite ask_question_validate, (validate_object fields s Hl Hs).
    rewrite answer_path_cases.
    rewrite (find_best_answer_same_globals w _ _ (same_globals_serve rs w)), Hf.
    rewrite history_is_list_serve, Hh. reflexivity.
  - apply history_file_serve_not_list, Hh.
Qed.

(** X7.  A history file that is missing, or holds a list of at most 50
    records, is so again after any sequence of requests. *)
Theorem serve_keeps_history_bounded (rs : list Request) (w : World) :
  history_file w = None
  \/ (exists l, history_file w = Some (JArr l) /\ (List.length l <= 50)%nat) ->
  history_file (serve rs w) = None
  \/ (exists l, history_file (serve rs w) = Some (JArr l)
                /\ (List.length l <= 50)%nat).
Proof.
  revert w. induction rs as [|r rs IH]; intros w H; cbn [serve]; [exact H|].
  apply IH.
  destruct (handle_world_cases r w) as [-> | [[_ ->] | [_ (q & a & ->)]]].
  - exact H.
  - exact H.
  - right. eexists. split; [reflexivity|].
    rewrite length_app, length_last_n. cbn [List.length]. lia.
Qed.

(** X8.  The answer to a request does not depend on what was served
    before it: the same request, made again after any sequence of
    requests, gets the same status, answer, confidence, question and
    error; only the timestamp differs. *)
Theorem ask_question_repeatable (get_json : result json) (rs : list Request)
        (w : World) :
  exists r1 r2,
    fst (ask_question get_json w) = Ok r1
    /\ fst (ask_question get_json (serve rs w)) = Ok r2
    /\ status r1 = status r2
    /\ field "answer" r1 = field "answer" r2
    /\ field "confidence" r1 = field "confidence" r2
    /\ field "question" r1 = field "question" r2
    /\ field "error" r1 = field "error" r2.
Proof.
  rewrite !ask_question_validate.
  destruct (validate get_json) as [r | u].
  - exists r, r. repeat split.
  - rewrite !answer_path_cases.
    rewrite (find_best_answer_same_globals w _ _ (same_globals_serve rs w)).
    rewrite history_is_list_serve.
    destruct (find_best_answer w u) as [[a c] | e].
    + destruct (history_is_list w); eexists; eexists; repeat split.
    + eexists; eexists; repeat split.
Qed.

(** ** [find_best_answer] in any world *)

(** What [find_best_answer] can return. *)
Lemma find_best_answer_cases (w : World) (q a : string) (c : R) :
  find_best_answer w q = Ok (a, c) ->
  (a = fallback_answer /\ c = 0)
  \/ (c > 3 / 10
      /\ exists kb e, knowledge_base w = Some kb /\ In e kb /\ a = answer e).
Proof.
  unfold find_best_answer.
  destruct (best_match w q) as [[k c0] | e] eqn:Hb; [|discriminate].
  cbn [rbind]. destruct (Rgt_dec c0 (3 / 10)) as [Hgt | Hle].
  - destruct (knowledge_base w) as [kb|] eqn:Hkb; [|discriminate].
    cbn [subscript]. unfold getitem.
    destruct (nth_error kb k) as [e|] eqn:He; [|discriminate].
    cbn [rbind]. intros [= <- <-]. right. split.
    + lra.
    + exists kb, e. split; [reflexivity|].
      split; [apply (nth_error_In kb k He) | reflexivity].
  - intros [= <- <-]. left. split; reflexivity.
Qed.

(** X9.  Whatever the state of the globals, when [find_best_answer]
    returns, it returns either the fallback text with confidence 0, or
    the answer of an entry of the knowledge base with a confidence
    above 0.3. *)
Theorem find_best_answer_range (w : World) (q a : string) (c : R) :
  find_best_answer w q = Ok (a, c) ->
  (a = fallback_answer /\ c = 0)
  \/ (c > 3 / 10
      /\ exists kb e, knowledge_base w = Some kb /\ In e kb /\ a = answer e).
Proof. apply find_best_answer_cases. Qed.

Lemma validate_inr_nonempty (get_json : result json) (u : string) :
  validate get_json = inr u -> u <> "".
Proof.
  unfold validate.
  destruct get_json as [data | e]; [|discriminate].
  destruct (negb (truthy data)); [discriminate|].
  destruct (contains data "question") as [[|] | e]; try discriminate.
  destruct (getitem_key data "question") as [q | e]; [|discriminate].
  destruct (strip_method q) as [u' | e]; [|discriminate].
  destruct (negb (truthy (JStr u'))) eqn:Ht; [discriminate|].
  intros [= <-]. cbn [truthy] in Ht.
  apply negb_false_iff, negb_true_iff, String.eqb_neq in Ht. exact Ht.
Qed.

(** X15.  An answer of [POST /ask] with status 200 carries a non-empty
    question, what [find_best_answer] returned for it, and the second
    clock reading: its answer and confidence are the fallback text with
    0.0, or the answer of an entry of the knowledge base with a
    confidence above 0.3. *)
Theorem ask_question_ok_body (get_json : result json) (w : World)
        (r : Response) :
  fst (ask_question get_json w) = Ok r ->
  status r = 200%nat ->
  exists q a c,
    body r = answer_body q a c (S (clock w))
    /\ q <> ""
    /\ find_best_answer w q = Ok (a, c)
    /\ ((a = fallback_answer /\ c = 0)
        \/ (c > 3 / 10
            /\ exists kb e,
                 knowledge_base w = Some kb /\ In e kb /\ a = answer e)).
Proof.
  rewrite ask_question_validate.
  destruct (validate get_json) as [r' | u] eqn:Hv.
  - cbn [fst]. intros [= <-] Hs.
    destruct (validate_inl_status _ _ Hv) as [H | H]; congruence.
  - rewrite answer_path_cases.
    destruct (find_best_answer w u) as [[a c] | e] eqn:Hf.
    + destruct (history_is_list w); cbn [fst]; intros [= <-] Hs;
        [|discriminate].
      exists u, a, c. split; [reflexivity|].
      split; [apply (validate_inr_nonempty _ _ Hv)|].
      split; [exact Hf | apply (find_best_answer_cases w u a c Hf)].
    + cbn [fst]. intros [= <-] Hs. discriminate.
Qed.

(** ** Startup *)

(** X10.  [startup] is all or nothing.  When the model cannot be
    obtained it raises what the constructor raised and leaves the world
    as it was; otherwise it completes, the model, the knowledge base and
    one embedding per question are loaded, and the history file and the
    clock are untouched. *)
Theorem startup_all_or_nothing (SentenceTransformer : string -> result Embedder)
        (w : World) :
  (exists e, SentenceTransformer "all-MiniLM-L6-v2" = Raise e
             /\ startup SentenceTransformer w = (Raise e, w))
  \/ (exists m w',
        SentenceTransformer "all-MiniLM-L6-v2" = Ok m
        /\ startup SentenceTransformer w = (Ok tt, w')
        /\ ready w' m professional_knowledge_base
        /\ history_file w' = history_file w
        /\ clock w' = clock w).
Proof.
  unfold startup, load_model, load_knowledge_base, bind, lift, modify, get.
  destruct (SentenceTransformer "all-MiniLM-L6-v2") as [m | e].
  - right. exists m. eexists. cbn. repeat split.
  - left. exists e. split; reflexivity.
Qed.

(** X11.  [load_knowledge_base] called while no model is loaded raises
    on the missing [encode] after it has assigned the knowledge base:
    the knowledge base is then set and the embedding table is not, the
    health check reports the knowledge base as loaded, and
    [find_best_answer] raises for every question. *)
Theorem load_knowledge_base_without_model (w : World) :
  model w = None ->
  load_knowledge_base w
  = (Raise AttributeError, set_knowledge_base w professional_knowledge_base)
  /\ fst (health_check (snd (load_knowledge_base w)))
     = Ok (jsonify (JObj [("status", JStr "healthy");
                          ("model_loaded", JBool false);
                          ("knowledge_base_loaded", JBool true)]))
  /\ forall q, find_best_answer (snd (load_knowledge_base w)) q
               = Raise AttributeError.
Proof.
  intros Hm.
  assert (H : load_knowledge_base w
              = (Raise AttributeError,
                 set_knowledge_base w professional_knowledge_base)).
  { unfold load_knowledge_base, bind, modify, get, lift. cbn.
    rewrite Hm. reflexivity. }
  rewrite H. cbn [snd]. split; [reflexivity|]. split.
  - unfold health_check, bind, get, ret. cbn. rewrite Hm. reflexivity.
  - intros q. unfold find_best_answer, best_match. cbn. rewrite Hm. reflexivity.
Qed.

(** X12.  After a completed [startup], and after any sequence of
    requests, the health check answers 200 with both [model_loaded] and
    [knowledge_base_loaded] true, and changes nothing. *)
Theorem health_check_after_startup
        (SentenceTransformer : string -> result Embedder) (m : Embedder)
        (w0 : World) (rs : list Request) :
  SentenceTransformer "all-MiniLM-L6-v2" = Ok m ->
  health_check (serve rs (snd (startup SentenceTransformer w0)))
  = (Ok (jsonify (JObj [("status", JStr "healthy");
                        ("model_loaded", JBool true);
                        ("knowledge_base_loaded", JBool true)])),
     serve rs (snd (startup SentenceTransformer w0))).
Proof.
  intros HST.
  destruct (startup_ready SentenceTransformer m w0 HST) as [_ Hr].
  destruct (ready_same_globals _ _ m _ Hr (same_globals_serve rs _))
    as (Hm & Hkb & _).
  unfold health_check, bind, get, ret. rewrite Hm, Hkb. reflexivity.
Qed.

(** ** Several questions in a row *)

Lemma last_n_last_n {A : Type} (a b : nat) (l : list A) :
  (a <= b)%nat -> last_n a (last_n b l) = last_n a l.
Proof.
  intros Hab. unfold last_n at 1. rewrite length_last_n.
  unfold last_n. rewrite skipn_skipn. f_equal. lia.
Qed.

Lemma answer_text_same_globals (w w' : World) (q : string) :
  same_globals w w' -> answer_text w' q = answer_text w q.
Proof.
  intros H. unfold answer_text.
  rewrite (find_best_answer_same_globals w w' q H). reflexivity.
Qed.

Lemma history_records_same_globals (w w' : World) (t : nat) (qs : list string) :
  same_globals w w' -> history_records w' t qs = history_records w t qs.
Proof.
  intros H. revert t. induction qs as [|q qs IH]; intros t; cbn [history_records].
  - reflexivity.
  - rewrite IH, (answer_text_same_globals w w' _ H). reflexivity.
Qed.

(** The world after one answered question. *)
Lemma handle_ask (w : World) (q : string) :
  history_is_list w = true ->
  strip q <> "" ->
  (exists a c, find_best_answer w (strip q) = Ok (a, c)) ->
  snd (handle (ask q) w)
  = tick (set_history_file (tick w)
            (JArr (last_n 49 (history_list w)
                   ++ [history_record (clock w) (strip q)
                         (answer_text w (strip q))]))).
Proof.
  intros Hh Hs (a & c & Hf). cbn [handle ask].
  rewrite (ask_question_answered w [("question", JStr q)] q a c
             eq_refl Hs Hf Hh).
  unfold answer_text. rewrite Hf. reflexivity.
Qed.

Lemma serve_asks (qs : list string) :
  forall (q : string) (w : World),
    history_is_list w = true ->
    Forall (fun q' => strip q' <> ""
                      /\ exists a c, find_best_answer w (strip q') = Ok (a, c))
           (q :: qs) ->
    history_file (serve (map ask (q :: qs)) w)
    = Some (JArr (last_n 50 (history_list w
                             ++ history_records w (clock w) (q :: qs))))
    /\ clock (serve (map ask (q :: qs)) w)
       = (clock w + 2 * S (List.length qs))%nat.
Proof.
  induction qs as [|q' qs IH]; intros q w Hh Hall.
  - inversion Hall as [|? ? [Hs Hf] _]; subst.
    cbn [map serve]. rewrite (handle_ask w q Hh Hs Hf).
    cbn [history_records]. rewrite last_n_snoc. split; [reflexivity|].
    cbn. lia.
  - inversion Hall as [|? ? [Hs Hf] Hrest]; subst.
    change (serve (map ask (q :: q' :: qs)) w)
      with (serve (map ask (q' :: qs)) (snd (handle (ask q) w))).
    rewrite (handle_ask w q Hh Hs Hf).
    set (w1 := tick (set_history_file (tick w) _)).
    assert (Hg : same_globals w w1) by (repeat split).
    destruct (IH q' w1) as [Hfile Hclock].
    + reflexivity.
    + eapply Forall_impl; [|exact Hrest]. cbv beta.
      intros x [Hx Hfx]. split; [exact Hx|].
      rewrite (find_best_answer_same_globals w w1 _ Hg). exact Hfx.
    + rewrite Hfile, Hclock. split; [|cbn; lia].
      rewrite (history_records_same_globals w w1 _ _ Hg).
      change (history_list w1)
        with (last_n 49 (history_list w)
              ++ [history_record (clock w) (strip q) (answer_text w (strip q))]).
      rewrite <- last_n_snoc, last_n_app_last_n, <- app_assoc.
      reflexivity.
Qed.

(** X13.  After a non-empty sequence of requests with usable questions
    that [find_best_answer] answers, served from a world whose history
    is a list or missing, the history file holds the last 50 of: the
    old records followed by one record per request, in the order of the
    requests, each with the stripped question, the answer given and the
    clock reading of its request; the clock has been read twice per
    request. *)
Theorem serve_asks_history (w : World) (qs : list string) :
  history_is_list w = true ->
  qs <> [] ->
  Forall (fun q => strip q <> ""
                   /\ exists a c, find_best_answer w (strip q) = Ok (a, c)) qs ->
  history_file (serve (map ask qs) w)
  = Some (JArr (last_n 50 (history_list w ++ history_records w (clock w) qs)))
  /\ clock (serve (map ask qs) w) = (clock w + 2 * List.length qs)%nat.
Proof.
  intros Hh Hne Hall. destruct qs as [|q qs]; [congruence|].
  apply (serve_asks qs q w Hh Hall).
Qed.

(** X14.  What is asked is read back: after an answered question,
    [get_chat_history] returns the nine records that were last before it
    followed by the record of this question, and changes nothing. *)
Theorem ask_then_history (w : World) (fields : list (string * json))
        (s a : string) (c : R) :
  lookup "question" fields = Some (JStr s) ->
  strip s <> "" ->
  find_best_answer w (strip s) = Ok (a, c) ->
  history_is_list w = true ->
  get_chat_history (snd (ask_question (Ok (JObj fields)) w))
  = (Ok (jsonify
           (JObj [("history",
                   JArr (last_n 9 (history_list w)
                         ++ [history_record (clock w) (strip s) a]))])),
     snd (ask_question (Ok (JObj fields)) w)).
Proof.
  intros Hl Hs Hf Hh.
  rewrite (ask_question_answered w fields s a c Hl Hs Hf Hh). cbn [snd].
  match goal with
  | |- get_chat_history ?w1 = _ =>
      pose proof (get_chat_history_list w1
                    (last_n 49 (history_list w)
                     ++ [history_record (clock w) (strip s) a]) eq_refl)
        as Hg
  end.
  rewrite Hg, last_n_snoc, last_n_last_n by lia. reflexivity.
Qed.

(** ** The further properties on the concrete worlds *)

Lemma find_best_answer_started_constant :
  find_best_answer (started constant_embedder) (question (entry 0))
  = Ok (answer (entry 0), 1).
Proof.
  apply (find_best_answer_above _ _ 0 1 (entry 0)); [| reflexivity | lra].
  apply (best_match_self _ constant_embedder professional_knowledge_base
           1 (started_ready _) fixed_dimension_constant 0 (entry 0)).
  - reflexivity.
  - apply row_norm_constant_embedder.
  - intros j e' Hj. lia.
Qed.

Lemma find_best_answer_started_constant_any (q : string) :
  exists a c, find_best_answer (started constant_embedder) q = Ok (a, c).
Proof.
  destruct (find_best_answer_ready (started constant_embedder) constant_embedder
              professional_knowledge_base 1 (started_ready _)
              fixed_dimension_constant q) as (a & c & H & _).
  - discriminate.
  - exists a, c. exact H.
Qed.

Lemma ask_question_success_witness :
  ask_question
    (Ok (JObj [("question", JStr " How do I prioritize tasks effectively? ")]))
    (started constant_embedder)
  = (Ok (jsonify (answer_body (strip " How do I prioritize tasks effectively? ")
                    (answer (entry 0)) 1
                    (S (clock (started constant_embedder))))),
     tick (set_history_file (tick (started constant_embedder))
             (JArr (last_n 49 (history_list (started constant_embedder))
                    ++ [history_record (clock (started constant_embedder))
                          (strip " How do I prioritize tasks effectively? ")
                          (answer (entry 0))])))).
Proof.
  apply (ask_question_success (started constant_embedder)
           [("question", JStr " How do I prioritize tasks effectively? ")]
           " How do I prioritize tasks effectively? " (answer (entry 0)) 1).
  - reflexivity.
  - discriminate.
  - exact find_best_answer_started_constant.
  - reflexivity.
Defined.

Lemma ask_question_without_model_witness :
  find_best_answer sample_world (strip "How?") = Raise AttributeError
  /\ ask_question (Ok (JObj [("question", JStr "How?")])) sample_world
     = (Ok error_500, sample_world).
Proof.
  apply (ask_question_without_model sample_world
           [("question", JStr "How?")] "How?").
  - reflexivity.
  - reflexivity.
  - discriminate.
Defined.

Lemma get_chat_history_last_10_witness :
  get_chat_history full_log_world
  = (Ok (jsonify (JObj [("history", JArr (last_n 10 sample_history))])),
     full_log_world)
  /\ List.length (last_n 10 sample_history)
     = Nat.min 10 (List.length sample_history)
  /\ exists older, sample_history = older ++ last_n 10 sample_history.
Proof.
  apply (get_chat_history_last_10 full_log_world sample_history).
  reflexivity.
Defined.

Lemma ask_question_history_not_list_witness :
  ask_question (Ok (JObj [("question", JStr "How do I prioritize tasks effectively?")]))
    (serve [GetHistory; ask "again"] odd_history_world)
  = (Ok error_500, tick (serve [GetHistory; ask "again"] odd_history_world))
  /\ history_file (serve [GetHistory; ask "again"] odd_history_world)
     = history_file odd_history_world.
Proof.
  apply (ask_question_history_not_list odd_history_world
           [GetHistory; ask "again"]
           [("question", JStr "How do I prioritize tasks effectively?")]
           "How do I prioritize tasks effectively?" (answer (entry 0)) 1).
  - reflexivity.
  - reflexivity.
  - discriminate.
  - rewrite <- find_best_answer_started_constant.
    apply find_best_answer_same_globals. repeat split.
Defined.

Lemma serve_keeps_history_bounded_witness :
  history_file (serve [ask "How?"; GetHistory] full_log_world) = None
  \/ (exists l,
        history_file (serve [ask "How?"; GetHistory] full_log_world)
        = Some (JArr l)
        /\ (List.length l <= 50)%nat).
Proof.
  apply (serve_keeps_history_bounded [ask "How?"; GetHistory] full_log_world).
  right. exists sample_history. split; [reflexivity|].
  apply Nat.eq_le_incl. reflexivity.
Defined.

Lemma find_best_answer_range_witness :
  (answer (entry 0) = fallback_answer /\ 1 = 0)
  \/ (1 > 3 / 10
      /\ exists kb e,
           knowledge_base (started constant_embedder) = Some kb
           /\ In e kb /\ answer (entry 0) = answer e).
Proof.
  apply (find_best_answer_range (started constant_embedder)
           (question (entry 0)) (answer (entry 0)) 1).
  exact find_best_answer_started_constant.
Defined.

Lemma load_knowledge_base_without_model_witness :
  load_knowledge_base sample_world
  = (Raise AttributeError,
     set_knowledge_base sample_world professional_knowledge_base)
  /\ fst (health_check (snd (load_knowledge_base sample_world)))
     = Ok (jsonify (JObj [("status", JStr "healthy");
                          ("model_loaded", JBool false);
                          ("knowledge_base_loaded", JBool true)]))
  /\ forall q, find_best_answer (snd (load_knowledge_base sample_world)) q
               = Raise AttributeError.
Proof.
  apply (load_knowledge_base_without_model sample_world). reflexivity.
Defined.

Lemma health_check_after_startup_witness :
  health_check
    (serve [ask "How?"; GetHealth]
       (snd (startup (fun _ => Ok constant_embedder) sample_world)))
  = (Ok (jsonify (JObj [("status", JStr "healthy");
                        ("model_loaded", JBool true);
                        ("knowledge_base_loaded", JBool true)])),
     serve [ask "How?"; GetHealth]
       (snd (startup (fun _ => Ok constant_embedder) sample_world))).
Proof.
  apply (health_check_after_startup (fun _ => Ok constant_embedder)
           constant_embedder sample_world [ask "How?"; GetHealth]).
  reflexivity.
Defined.

Lemma serve_asks_history_witness :
  history_file (serve (map ask [" How? "; "Why?"]) (started constant_embedder))
  = Some (JArr (last_n 50
                  (history_list (started constant_embedder)
                   ++ history_records (started constant_embedder)
                        (clock (started constant_embedder))
                        [" How? "; "Why?"])))
  /\ clock (serve (map ask [" How? "; "Why?"]) (started constant_embedder))
     = (clock (started constant_embedder)
        + 2 * List.length [" How? "; "Why?"])%nat.
Proof.
  apply (serve_asks_history (started constant_embedder) [" How? "; "Why?"]).
  - reflexivity.
  - discriminate.
  - repeat constructor; try discriminate;
      apply find_best_answer_started_constant_any.
Defined.

Lemma ask_then_history_witness :
  get_chat_history
    (snd (ask_question
            (Ok (JObj [("question", JStr "How do I prioritize tasks effectively?")]))
            (started constant_embedder)))
  = (Ok (jsonify
           (JObj [("history",
                   JArr (last_n 9 (history_list (started constant_embedder))
                         ++ [history_record (clock (started constant_embedder))
                               (strip "How do I prioritize tasks effectively?")
                               (answer (entry 0))]))])),
     snd (ask_question
            (Ok (JObj [("question", JStr "How do I prioritize tasks effectively?")]))
            (started constant_embedder))).
Proof.
  apply (ask_then_history (started constant_embedder)
           [("question", JStr "How do I prioritize tasks effectively?")]
           "How do I prioritize tasks effectively?" (answer (entry 0)) 1).
  - reflexivity.
  - discriminate.
  - exact find_best_answer_started_constant.
  - reflexivity.
Defined.

Lemma ask_question_ok_body_witness :
  exists q a c,
    body (jsonify (answer_body (question (entry 0)) (answer (entry 0)) 1 1))
    = answer_body q a c (S (clock (started constant_embedder)))
    /\ q <> ""
    /\ find_best_answer (started constant_embedder) q = Ok (a, c)
    /\ ((a = fallback_answer /\ c = 0)
        \/ (c > 3 / 10
            /\ exists kb e,
                 knowledge_base (started constant_embedder) = Some kb
                 /\ In e kb /\ a = answer e)).
Proof.
  apply (ask_question_ok_body
           (Ok (JObj [("question", JStr "How do I prioritize tasks effectively?")]))
           (started constant_embedder)).
  - rewrite (ask_question_answered (started constant_embedder)
               [("question", JStr "How do I prioritize tasks effectively?")]
               "How do I prioritize tasks effectively?" (answer (entry 0)) 1).
    + reflexivity.
    + reflexivity.
    + discriminate.
    + exact find_best_answer_started_constant.
    + reflexivity.
  - reflexivity.
Defined.
